(** * xstate-viz: the source lifecycle machine and the canvas drag machine

    A shallow embedding of [src/sourceMachine.ts] (the machine built by
    [makeSourceMachine]) and of the drag machine of the [CanvasContainer]
    component, with the properties of the specification stated over
    them.

    The statechart runtime is rendered the way XState 4 runs these two
    machines: a transition is a pure function of the resting state, the
    context, the event and what the guards read from the browser, and it
    yields the next resting state, the next context and the ordered list
    of side effects to execute afterwards.  Because the machine sets
    [preserveActionOrder: true], every action sees the context as left by
    the actions before it. *)

From Stdlib Require Import String Ascii List ZArith Bool Lia.
Import ListNotations.
Open Scope string_scope.

(** ** JavaScript values used by the machines *)

(** A value that may be [null] or [undefined]. *)
Inductive Nullable (A : Type) : Type :=
| Null
| Undefined
| Val (a : A).
Arguments Null {A}.
Arguments Undefined {A}.
Arguments Val {A} a.

(** [Boolean(v)] for a nullable string: the empty string is falsy. *)
Definition Boolean (v : Nullable string) : bool :=
  match v with
  | Val s => negb (s =? "")
  | _ => false
  end.

(** [Boolean(v)] for a nullable object: every object is truthy. *)
Definition BooleanObj {A : Type} (v : Nullable A) : bool :=
  match v with
  | Val _ => true
  | _ => false
  end.

(** String conversion as done by template literals and by [+]. *)
Definition toStr (v : Nullable string) : string :=
  match v with
  | Null => "null"
  | Undefined => "undefined"
  | Val s => s
  end.

(** [v || null]. *)
Definition orNull (v : Nullable string) : Nullable string :=
  if Boolean v then v else Null.

(** [String.prototype.endsWith(search)]: the last [length search]
    characters of [s] are [search]. *)
Definition endsWith (s search : string) : bool :=
  let n := String.length s in
  let m := String.length search in
  if Nat.ltb n m then false
  else substring (n - m) m s =? search.

(** [URLSearchParams]: an ordered list of name/value pairs. *)
Definition Queries := list (string * string).

(** [queries.get(name)]: the first value stored under [name], or [null]. *)
Fixpoint qget (name : string) (q : Queries) : Nullable string :=
  match q with
  | [] => Null
  | (k, v) :: rest => if k =? name then Val v else qget name rest
  end.

(** [queries.delete(name)]: drops every pair stored under [name]. *)
Fixpoint qdelete (name : string) (q : Queries) : Queries :=
  match q with
  | [] => []
  | (k, v) :: rest =>
      if k =? name then qdelete name rest else (k, v) :: qdelete name rest
  end.

(** Errors a service can reject with.  [NotFoundError] is the class of
    [sourceMachine.ts]; every other thrown [Error] keeps its [name] and
    [message]. *)
Inductive JsError :=
| NotFoundError (message : string)
| OtherError (name message : string).

(** [e instanceof NotFoundError]. *)
Definition instanceofNotFoundError (e : JsError) : bool :=
  match e with
  | NotFoundError _ => true
  | OtherError _ _ => false
  end.

(** [e.toString()]: [NotFoundError] overrides it to return the message;
    the others use [Error.prototype.toString]. *)
Definition errToString (e : JsError) : string :=
  match e with
  | NotFoundError message => message
  | OtherError name message =>
      if name =? "" then message
      else if message =? "" then name
      else name ++ ": " ++ message
  end.

(** ** Data model of the source machine *)

Inductive SourceProvider := gist | registry.

Record Owner := { owner_id : string }.

(** [SourceFileFragment] (generated GraphQL type): the fields the machine
    reads. *)
Record SourceFileFragment := {
  sf_id : string;
  sf_text : string;
  sf_updatedAt : Nullable string;
  sf_owner : Nullable Owner
}.

(** [GetSourceFileQuery]: [{ getSourceFile?: SourceFileFragment | null }]. *)
Record GetSourceFileQuery := {
  getSourceFile : Nullable SourceFileFragment
}.

(** [UpdateSourceFileMutation]. *)
Record UpdateSourceFileMutation := {
  updateSourceFile : SourceFileFragment
}.

(** Actors the machine holds a reference to. *)
Inductive ActorRef := Spawned (src : string).

Definition notifMachine := "notifMachine".

(** The context of [sourceModel]. *)
Record Context := {
  sourceID : Nullable string;
  sourceProvider : option SourceProvider;
  sourceRawContent : Nullable string;
  sourceRegistryData : Nullable SourceFileFragment;
  notifRef : Nullable ActorRef;
  loggedInUserId : Nullable string;
  desiredMachineName : Nullable string
}.

(** [sourceModel.initialContext]. *)
Definition initialContext : Context :=
  {| sourceID := Null;
     sourceProvider := None;
     sourceRawContent := Null;
     sourceRegistryData := Null;
     notifRef := Null;
     loggedInUserId := Null;
     desiredMachineName := Null |}.

Definition set_sourceID (v : Nullable string) (c : Context) : Context :=
  {| sourceID := v;
     sourceProvider := sourceProvider c;
     sourceRawContent := sourceRawContent c;
     sourceRegistryData := sourceRegistryData c;
     notifRef := notifRef c;
     loggedInUserId := loggedInUserId c;
     desiredMachineName := desiredMachineName c |}.

Definition set_sourceProvider (v : option SourceProvider) (c : Context)
  : Context :=
  {| sourceID := sourceID c;
     sourceProvider := v;
     sourceRawContent := sourceRawContent c;
     sourceRegistryData := sourceRegistryData c;
     notifRef := notifRef c;
     loggedInUserId := loggedInUserId c;
     desiredMachineName := desiredMachineName c |}.

Definition set_sourceRawContent (v : Nullable string) (c : Context)
  : Context :=
  {| sourceID := sourceID c;
     sourceProvider := sourceProvider c;
     sourceRawContent := v;
     sourceRegistryData := sourceRegistryData c;
     notifRef := notifRef c;
     loggedInUserId := loggedInUserId c;
     desiredMachineName := desiredMachineName c |}.

Definition set_sourceRegistryData (v : Nullable SourceFileFragment)
  (c : Context) : Context :=
  {| sourceID := sourceID c;
     sourceProvider := sourceProvider c;
     sourceRawContent := sourceRawContent c;
     sourceRegistryData := v;
     notifRef := notifRef c;
     loggedInUserId := loggedInUserId c;
     desiredMachineName := desiredMachineName c |}.

Definition set_notifRef (v : Nullable ActorRef) (c : Context) : Context :=
  {| sourceID := sourceID c;
     sourceProvider := sourceProvider c;
     sourceRawContent := sourceRawContent c;
     sourceRegistryData := sourceRegistryData c;
     notifRef := v;
     loggedInUserId := loggedInUserId c;
     desiredMachineName := desiredMachineName c |}.

Definition set_loggedInUserId (v : Nullable string) (c : Context) : Context :=
  {| sourceID := sourceID c;
     sourceProvider := sourceProvider c;
     sourceRawContent := sourceRawContent c;
     sourceRegistryData := sourceRegistryData c;
     notifRef := notifRef c;
     loggedInUserId := v;
     desiredMachineName := desiredMachineName c |}.

Definition set_desiredMachineName (v : Nullable string) (c : Context)
  : Context :=
  {| sourceID := sourceID c;
     sourceProvider := sourceProvider c;
     sourceRawContent := sourceRawContent c;
     sourceRegistryData := sourceRegistryData c;
     notifRef := notifRef c;
     loggedInUserId := loggedInUserId c;
     desiredMachineName := v |}.

(** The events of [sourceModel], followed by the events the runtime
    raises at start and when an invoked service settles. *)
Inductive Event :=
| EXAMPLE_REQUESTED
| SAVE
| FORK
| CREATE_NEW
| LOADED_FROM_GIST (rawSource : string)
| LOADED_FROM_REGISTRY (data : GetSourceFileQuery)
| CODE_UPDATED (code : string) (sourceID : Nullable string)
| LOGGED_IN_USER_ID_UPDATED (id : Nullable string)
| CHOOSE_NAME (name : string)
| CLOSE_NAME_CHOOSER_MODAL
| MACHINE_ID_CHANGED (id : string)
| xstate_init
| error_loadSourceContent (data : JsError)
| done_createSourceFile (data : Nullable SourceFileFragment)
| error_createSourceFile (data : JsError)
| done_updateSourceFile (data : UpdateSourceFileMutation)
| error_updateSourceFile (data : JsError).

(** Events of the notification machine. *)
Inductive NotifStatus := success | error.

Inductive NotifEvent :=
| BROADCAST (message : string) (status : NotifStatus).

Definition LOGGED_OUT_USER_ATTEMPTED_RESTRICTED_ACTION :=
  "LOGGED_OUT_USER_ATTEMPTED_RESTRICTED_ACTION".

(** The side effects a transition asks the interpreter to execute, in
    order. *)
Inductive Effect :=
| RedirectToNewUrlFromLegacyUrl
| OpenNewWindowAtRoot
| SendParent (event : string)
| Send (event : NotifEvent) (to : Nullable ActorRef)
| ForwardTo (id : string) (event : Event)
| RemoveSourceRawContent (sourceID : Nullable string)
| RouterReplace (url : string)
| UpdateQueryParamsWithoutReload (callback : Queries -> Queries).

(** ** The state tree

    Only resting states are values.  The states left at once by an
    [always] transition ([checking_if_id_on_query_params],
    [checking_initial_data], [checking_url],
    [checking_if_user_owns_source], [checking_if_in_local_storage]) and
    the final state [check_complete] are the functions of the same names
    below, which compute the resting state they lead to. *)

Inductive SourceLoaded :=
| user_owns_this_source
| user_does_not_own_this_source.

Inductive WithSource :=
| loading_content
| source_loaded (s : SourceLoaded)
| source_error.

Inductive NoSource :=
| has_cached_source
| no_cached_source.

Inductive Creating :=
| showingNameModal
| pendingSave.

Inductive StateValue :=
| redirecting (* checking_if_on_legacy_url.redirecting *)
| with_source (s : WithSource)
| no_source (s : NoSource)
| creating (s : Creating)
| updating.

Record Config := {
  value : StateValue;
  context : Context
}.

(** The result of a transition. *)
Definition Step : Type := Config * list Effect.

(** ** What the machine is built with and what it reads *)

(** Server-supplied initial data ([params.data]). *)
Record SsrData := {
  ssr_id : string;
  ssr_text : string
}.

Record Params := {
  data : Nullable SsrData;
  isEmbedded : bool
}.

Record Session := { access_token : string }.

(** What guards and assigners read from the browser when a transition is
    computed.  [isOnClientSide] and [localCache] are imported modules
    whose code is not embedded: their results are fields here.
    [window] is [None] where [typeof window === 'undefined']; otherwise it
    holds [new URLSearchParams(window.location.search)].
    [typeErrorMessage base property] is the message of the [TypeError]
    the engine throws when [property] is read off [base], which is
    [undefined] or [null]; engines word it differently. *)
Record World := {
  isOnClientSide : bool;
  window : option Queries;
  session : Nullable Session; (* params.auth.session() *)
  getSourceRawContent :
    Nullable string -> Nullable string -> Nullable string;
  typeErrorMessage : string -> string -> string
}.

(** ** The source machine ([makeSourceMachine]) *)

(** [getInvocations]: the services invoked by [source_loaded] and
    [no_source].  The function has no [return] on its embedded branch
    ([else [];] is an expression statement), so it yields [undefined]
    there: [None]. *)
Record Invocation := {
  src : string;
  id : string
}.

Definition cacheCodeChangesMachine := "cacheCodeChangesMachine".
Definition confirmBeforeLeavingMachine := "confirmBeforeLeavingMachine".

Definition getInvocations (isEmbedded : bool) : option (list Invocation) :=
  if negb isEmbedded then
    Some [ {| src := cacheCodeChangesMachine; id := "codeCacheMachine" |};
           {| src := confirmBeforeLeavingMachine;
              id := "confirmBeforeLeavingMachine" |} ]
  else None.

(** The runtime reads an [invoke] property through [toArray]: [undefined]
    gives no invocation. *)
Definition toArray {A : Type} (v : option (list A)) : list A :=
  match v with
  | Some l => l
  | None => []
  end.

(** An action: it sees the context left by the actions before it and the
    event, and gives the next context and the effects to execute. *)
Definition Action : Type := Context -> Event -> Context * list Effect.

(** [assign(f)]. *)
Definition assign (f : Context -> Event -> Context) : Action :=
  fun ctx e => (f ctx e, []).

(** A custom action or a [send]. *)
Definition exec (f : Context -> Event -> list Effect) : Action :=
  fun ctx e => (ctx, f ctx e).

(** [choose([{ actions, cond }])]. *)
Definition choose (cond : bool) (actions : list Action) : list Action :=
  if cond then actions else [].

(** [forwardTo(id)]. *)
Definition forwardTo (id : string) : Action :=
  exec (fun _ e => [ForwardTo id e]).

(** [sendParent(event)]. *)
Definition sendParent (event : string) : Action :=
  exec (fun _ _ => [SendParent event]).

(** [send(event, { to: (ctx) => ctx.notifRef })]. *)
Definition sendToNotifRef (event : Context -> Event -> NotifEvent) : Action :=
  exec (fun ctx e => [Send (event ctx e) (notifRef ctx)]).

(** Runs a list of actions in order, threading the context. *)
Fixpoint runActions (actions : list Action) (ctx : Context) (e : Event)
  : Context * list Effect :=
  match actions with
  | [] => (ctx, [])
  | a :: rest =>
      let '(ctx1, fx1) := a ctx e in
      let '(ctx2, fx2) := runActions rest ctx1 e in
      (ctx2, (fx1 ++ fx2)%list)
  end.

Section SourceMachine.

Variable params : Params.
Variable world : World.

Definition isLoggedIn : bool := BooleanObj (session world).

(** *** Guards *)

Definition hasLocalStorageCachedSource (ctx : Context) : bool :=
  Boolean
    (getSourceRawContent world (sourceID ctx)
       (match sourceRegistryData ctx with
        | Val d => sf_updatedAt d
        | _ => Undefined
        end)).

(** The guard of [checking_if_id_on_query_params].  Past the
    [isOnClientSide()] test the code reads [window.location]; where
    there is no window that read throws, and the guard is taken as
    failed. *)
Definition idOnQueryParams : bool :=
  if negb (isOnClientSide world) then false
  else
    match window world with
    | Some queries => Boolean (qget "id" queries) && negb (BooleanObj (data params))
    | None => false
    end.

(** The guard of [checking_if_user_owns_source]. *)
Definition userOwnsSource (ctx : Context) : bool :=
  let ownerId :=
    match sourceRegistryData ctx with
    | Val d =>
        match sf_owner d with
        | Val o => Val (owner_id o)
        | _ => Undefined
        end
    | _ => Undefined
    end in
  if negb (Boolean ownerId) || negb (Boolean (loggedInUserId ctx)) then false
  else
    match ownerId, loggedInUserId ctx with
    | Val a, Val b => a =? b
    | _, _ => false
    end.

(** *** Named actions *)

Definition exampleMachineCode : string := "import { createMachine, assign } from 'xstate';

interface Context {
  retries: number;
}

const fetchMachine = createMachine<Context>({
  id: 'fetch',
  initial: 'idle',
  context: {
    retries: 0
  },
  states: {
    idle: {
      on: {
        FETCH: 'loading'
      }
    },
    loading: {
      on: {
        RESOLVE: 'success',
        REJECT: 'failure'
      }
    },
    success: {
      type: 'final'
    },
    failure: {
      on: {
        RETRY: {
          target: 'loading',
          actions: assign({
            retries: (context, event) => context.retries + 1
          })
        }
      }
    }
  }
});".

Definition redirectToNewUrlFromLegacyUrl : Action :=
  exec (fun _ _ => [RedirectToNewUrlFromLegacyUrl]).

Definition assignExampleMachineToContext : Action :=
  assign (fun ctx _ => set_sourceRawContent (Val exampleMachineCode) ctx).

Definition clearLocalStorageEntryForCurrentSource : Action :=
  exec (fun ctx _ => [RemoveSourceRawContent (sourceID ctx)]).

Definition addForkOfToDesiredName : Action :=
  assign (fun ctx _ =>
    if negb (Boolean (desiredMachineName ctx))
       || match desiredMachineName ctx with
          | Val name => endsWith name "(forked)"
          | _ => false
          end
    then ctx
    else
      set_desiredMachineName
        (Val (toStr (desiredMachineName ctx) ++ " (forked)")) ctx).

Definition showSaveErrorToast : Action :=
  sendToNotifRef (fun _ _ => BROADCAST "An error occurred when saving." error).

Definition assignCreateSourceFileToContext : Action :=
  assign (fun ctx e =>
    match e with
    | done_createSourceFile d =>
        set_sourceRegistryData d
          (set_sourceProvider (Some registry)
             (set_sourceID
                (match d with
                 | Val r => Val (sf_id r)
                 | _ => Undefined
                 end) ctx))
    | _ => ctx
    end).

Definition updateURLWithMachineID : Action :=
  exec (fun ctx _ => [RouterReplace ("/" ++ toStr (sourceID ctx))]).

Definition getLocalStorageCachedSource : Action :=
  assign (fun ctx _ =>
    let result :=
      getSourceRawContent world (sourceID ctx)
        (match sourceRegistryData ctx with
         | Val d => sf_updatedAt d
         | _ => Undefined
         end) in
    if negb (Boolean result) then ctx
    else set_sourceRawContent result ctx).

Definition parseQueries : Action :=
  assign (fun ctx _ =>
    match window world with
    | None => ctx
    | Some queries =>
        if Boolean (qget "gist" queries) then
          set_sourceProvider (Some gist)
            (set_sourceID (qget "gist" queries) ctx)
        else if Boolean (qget "id" queries) then
          set_sourceProvider (Some registry)
            (set_sourceID (qget "id" queries) ctx)
        else ctx
    end).

Definition openNewWindowAtRoot : Action :=
  exec (fun _ _ => [OpenNewWindowAtRoot]).

(** The two entry actions of [source_error].  The state is entered
    only by the [onError] transition of [loadSourceContent], so the
    event at hand is that error event. *)
Definition broadcastError : Action :=
  exec (fun ctx e =>
    match e with
    | error_loadSourceContent d =>
        [Send (BROADCAST (errToString d) error) (notifRef ctx)]
    | _ => []
    end).

Definition deleteIdAndGist : Queries -> Queries :=
  fun queries => qdelete "gist" (qdelete "id" queries).

Definition cleanUrlIfNotFound : Action :=
  exec (fun _ e =>
    match e with
    | error_loadSourceContent d =>
        if instanceofNotFoundError d
        then [UpdateQueryParamsWithoutReload deleteIdAndGist]
        else []
    | _ => []
    end).

(** *** Entering states *)

(** Rest in a state: no further action. *)
Definition rest (v : StateValue) : Context -> Event -> Step :=
  fun ctx _ => ({| value := v; context := ctx |}, []).

(** Run actions, then continue with [k] on the context they leave. *)
Definition andThen (actions : list Action) (k : Context -> Event -> Step)
  : Context -> Event -> Step :=
  fun ctx e =>
    let '(ctx1, fx1) := runActions actions ctx e in
    let '(cfg, fx2) := k ctx1 e in
    (cfg, (fx1 ++ fx2)%list).

(** A transition without target: the state stays as it is. *)
Definition stay (v : StateValue) (actions : list Action)
  : Context -> Event -> Step :=
  andThen actions (rest v).

Definition checking_if_user_owns_source (ctx : Context) : SourceLoaded :=
  if userOwnsSource ctx then user_owns_this_source
  else user_does_not_own_this_source.

(** [source_loaded] entered from outside: its entry action runs, then
    the given child, or its initial child [checking_if_user_owns_source]
    when none is given. *)
Definition enter_source_loaded (child : option SourceLoaded)
  : Context -> Event -> Step :=
  andThen [getLocalStorageCachedSource]
    (fun ctx =>
       rest (with_source
               (source_loaded
                  (match child with
                   | Some s => s
                   | None => checking_if_user_owns_source ctx
                   end))) ctx).

(** [with_source] entered at its initial child. *)
Definition enter_with_source : Context -> Event -> Step :=
  rest (with_source loading_content).

Definition enter_source_error : Context -> Event -> Step :=
  andThen [broadcastError; cleanUrlIfNotFound]
    (rest (with_source source_error)).

(** [no_source] entered at its initial child
    [checking_if_in_local_storage]. *)
Definition enter_no_source : Context -> Event -> Step :=
  fun ctx e =>
    if hasLocalStorageCachedSource ctx
    then andThen [getLocalStorageCachedSource]
           (rest (no_source has_cached_source)) ctx e
    else rest (no_source no_cached_source) ctx e.

Definition enter_creating : Context -> Event -> Step :=
  rest (creating showingNameModal).

Definition checking_url : Context -> Event -> Step :=
  andThen [parseQueries]
    (fun ctx e =>
       if Boolean (sourceID ctx) then enter_with_source ctx e
       else enter_no_source ctx e).

Definition checking_initial_data : Context -> Event -> Step :=
  fun ctx e =>
    if Boolean (sourceID ctx) then enter_with_source ctx e
    else checking_url ctx e.

(** [checking_if_on_legacy_url], from its initial child
    [checking_if_id_on_query_params]: either it rests in [redirecting],
    or it reaches the final child [check_complete] and [onDone] leads to
    [checking_initial_data]. *)
Definition checking_if_on_legacy_url : Context -> Event -> Step :=
  fun ctx e =>
    if idOnQueryParams
    then andThen [redirectToNewUrlFromLegacyUrl] (rest redirecting) ctx e
    else checking_initial_data ctx e.

(** The context the machine is created with. *)
Definition machineContext : Context :=
  set_sourceProvider
    (if BooleanObj (data params) then Some registry else None)
    (set_sourceID
       (orNull (match data params with
                | Val d => Val (ssr_id d)
                | _ => Undefined
                end))
       (set_sourceRawContent
          (orNull (match data params with
                   | Val d => Val (ssr_text d)
                   | _ => Undefined
                   end))
          initialContext)).

(** The initial state: the root entry action spawns the notification
    machine, then the initial state is resolved. *)
Definition start : Step :=
  andThen
    [assign (fun ctx _ => set_notifRef (Val (Spawned notifMachine)) ctx)]
    checking_if_on_legacy_url machineContext xstate_init.

(** *** Event handlers, one per state node *)

Definition Handler : Type := Context -> Event -> option Step.

Definition orElse (h1 h2 : Handler) : Handler :=
  fun ctx e =>
    match h1 ctx e with
    | Some r => Some r
    | None => h2 ctx e
    end.

Definition unhandled : Handler := fun _ _ => None.

(** The [CODE_UPDATED] actions shared by [source_loaded] and
    [no_source]. *)
Definition codeUpdatedActions (code : string) : list Action :=
  (assign (fun ctx _ => set_sourceRawContent (Val code) ctx)
   :: choose (negb (isEmbedded params))
        [forwardTo "codeCacheMachine";
         forwardTo "confirmBeforeLeavingMachine"])%list.

Definition on_root (v : StateValue) : Handler :=
  fun ctx e =>
    match e with
    | LOGGED_IN_USER_ID_UPDATED id =>
        Some (stay v [assign (fun ctx _ => set_loggedInUserId id ctx)] ctx e)
    | MACHINE_ID_CHANGED id =>
        Some (stay v
                [assign (fun ctx _ => set_desiredMachineName (Val id) ctx)]
                ctx e)
    | _ => None
    end.

Definition on_with_source (v : StateValue) : Handler :=
  fun ctx e =>
    match e with
    | CREATE_NEW => Some (stay v [openNewWindowAtRoot] ctx e)
    | FORK =>
        Some (if isLoggedIn
              then andThen [addForkOfToDesiredName] enter_creating ctx e
              else stay v
                     [sendParent LOGGED_OUT_USER_ATTEMPTED_RESTRICTED_ACTION]
                     ctx e)
    | _ => None
    end.

Definition on_loading_content : Handler :=
  fun ctx e =>
    match e with
    | LOADED_FROM_REGISTRY d =>
        Some (andThen
                [assign (fun ctx _ =>
                   set_sourceRegistryData (getSourceFile d)
                     (set_sourceRawContent
                        (match getSourceFile d with
                         | Val r => Val (sf_text r)
                         | _ => Undefined
                         end)
                        (set_sourceID
                           (match getSourceFile d with
                            | Val r => Val (sf_id r)
                            | _ => Undefined
                            end) ctx)))]
                (enter_source_loaded None) ctx e)
    | LOADED_FROM_GIST rawSource =>
        Some (andThen
                [assign (fun ctx _ =>
                   set_sourceRawContent (Val rawSource) ctx)]
                (enter_source_loaded (Some user_does_not_own_this_source))
                ctx e)
    | error_loadSourceContent _ => Some (enter_source_error ctx e)
    | _ => None
    end.

Definition on_source_loaded (s : SourceLoaded) : Handler :=
  fun ctx e =>
    match e with
    | CODE_UPDATED code _ =>
        Some (stay (with_source (source_loaded s))
                (codeUpdatedActions code) ctx e)
    | LOGGED_IN_USER_ID_UPDATED id =>
        Some (andThen
                [assign (fun ctx _ => set_loggedInUserId id ctx)]
                (fun ctx =>
                   rest (with_source
                           (source_loaded
                              (checking_if_user_owns_source ctx))) ctx)
                ctx e)
    | _ => None
    end.

Definition on_user_owns_this_source : Handler :=
  fun ctx e =>
    match e with
    | SAVE =>
        Some (if isLoggedIn
              then rest updating ctx e
              else stay (with_source (source_loaded user_owns_this_source))
                     [sendParent LOGGED_OUT_USER_ATTEMPTED_RESTRICTED_ACTION]
                     ctx e)
    | _ => None
    end.

Definition on_user_does_not_own_this_source : Handler :=
  fun ctx e =>
    match e with
    | SAVE =>
        Some (if isLoggedIn
              then andThen [addForkOfToDesiredName] enter_creating ctx e
              else stay
                     (with_source
                        (source_loaded user_does_not_own_this_source))
                     [sendParent LOGGED_OUT_USER_ATTEMPTED_RESTRICTED_ACTION]
                     ctx e)
    | _ => None
    end.

Definition on_no_source (s : NoSource) : Handler :=
  fun ctx e =>
    match e with
    | CODE_UPDATED code _ =>
        Some (stay (no_source s) (codeUpdatedActions code) ctx e)
    | SAVE =>
        Some (if isLoggedIn
              then enter_creating ctx e
              else stay (no_source s)
                     [sendParent LOGGED_OUT_USER_ATTEMPTED_RESTRICTED_ACTION]
                     ctx e)
    | _ => None
    end.

Definition on_no_cached_source : Handler :=
  fun ctx e =>
    match e with
    | EXAMPLE_REQUESTED =>
        Some (stay (no_source no_cached_source)
                [assignExampleMachineToContext] ctx e)
    | _ => None
    end.

Definition on_showingNameModal : Handler :=
  fun ctx e =>
    match e with
    | CHOOSE_NAME name =>
        Some (andThen
                [assign (fun ctx _ =>
                   set_desiredMachineName (Val name) ctx)]
                (rest (creating pendingSave)) ctx e)
    | CLOSE_NAME_CHOOSER_MODAL =>
        Some (if Boolean (sourceID ctx)
              then enter_source_loaded None ctx e
              else enter_no_source ctx e)
    | _ => None
    end.

Definition on_pendingSave : Handler :=
  fun ctx e =>
    match e with
    | done_createSourceFile _ =>
        Some (andThen
                [clearLocalStorageEntryForCurrentSource;
                 assignCreateSourceFileToContext;
                 updateURLWithMachineID;
                 sendToNotifRef (fun _ _ =>
                   BROADCAST "New file saved successfully!" success)]
                (enter_source_loaded (Some user_owns_this_source)) ctx e)
    | error_createSourceFile _ =>
        Some (if Boolean (sourceID ctx)
              then andThen [showSaveErrorToast]
                     (enter_source_loaded None) ctx e
              else andThen [showSaveErrorToast] enter_no_source ctx e)
    | _ => None
    end.

Definition on_updating : Handler :=
  fun ctx e =>
    match e with
    | done_updateSourceFile d =>
        Some (andThen
                [assign (fun ctx _ =>
                   set_sourceRegistryData (Val (updateSourceFile d))
                     (set_sourceProvider (Some registry)
                        (set_sourceID (Val (sf_id (updateSourceFile d)))
                           ctx)));
                 sendToNotifRef (fun _ _ =>
                   BROADCAST "Saved successfully" success)]
                (enter_source_loaded (Some user_owns_this_source)) ctx e)
    | error_updateSourceFile _ =>
        Some (andThen
                [sendToNotifRef (fun _ _ =>
                   BROADCAST "An error occurred when saving." error)]
                (enter_source_loaded None) ctx e)
    | _ => None
    end.

(** The handlers that apply in a state, the deepest state node
    first. *)
Definition handlers (v : StateValue) : Handler :=
  match v with
  | redirecting => on_root v
  | with_source loading_content =>
      orElse on_loading_content (orElse (on_with_source v) (on_root v))
  | with_source (source_loaded user_owns_this_source) =>
      orElse on_user_owns_this_source
        (orElse (on_source_loaded user_owns_this_source)
           (orElse (on_with_source v) (on_root v)))
  | with_source (source_loaded user_does_not_own_this_source) =>
      orElse on_user_does_not_own_this_source
        (orElse (on_source_loaded user_does_not_own_this_source)
           (orElse (on_with_source v) (on_root v)))
  | with_source source_error => orElse (on_with_source v) (on_root v)
  | no_source has_cached_source =>
      orElse (on_no_source has_cached_source) (on_root v)
  | no_source no_cached_source =>
      orElse on_no_cached_source
        (orElse (on_no_source no_cached_source) (on_root v))
  | creating showingNameModal => orElse on_showingNameModal (on_root v)
  | creating pendingSave => orElse on_pendingSave (on_root v)
  | updating => orElse on_updating (on_root v)
  end.

(** One event: the transition of the deepest state node that handles
    it; an event no state node handles changes nothing. *)
Definition transition (cfg : Config) (e : Event) : Step :=
  match handlers (value cfg) (context cfg) e with
  | Some r => r
  | None => (cfg, [])
  end.

(** The services invoked while the machine rests in a state. *)
Definition invoked (v : StateValue) : list string :=
  match v with
  | with_source loading_content => ["loadSourceContent"]
  | with_source (source_loaded _) | no_source _ =>
      map id (toArray (getInvocations (isEmbedded params)))
  | creating pendingSave => ["createSourceFile"]
  | updating => ["updateSourceFile"]
  | _ => []
  end.

End SourceMachine.

(** ** The [loadSourceContent] service *)

(** The outcome of awaited code: a value, or a thrown error. *)
Inductive Result (A : Type) : Type :=
| Ok (a : A)
| Throw (e : JsError).
Arguments Ok {A} a.
Arguments Throw {A} e.

Definition bind {A B : Type} (r : Result A) (k : A -> Result B) : Result B :=
  match r with
  | Ok a => k a
  | Throw e => Throw e
  end.

Notation "'await' x <- r ; k" := (bind r (fun x => k))
  (at level 10, x name, r at level 100, k at level 200).

(** A failure of the network layer.  [NotFoundError] is private to
    [sourceMachine.ts], so what [fetch] and [gQuery] throw is never an
    instance of it. *)
Record TransportError := {
  err_name : string;
  err_message : string
}.

Inductive Outcome (A : Type) : Type :=
| Fulfilled (a : A)
| Rejected (e : TransportError).
Arguments Fulfilled {A} a.
Arguments Rejected {A} e.

Definition awaited {A : Type} (o : Outcome A) : Result A :=
  match o with
  | Fulfilled a => Ok a
  | Rejected e => Throw (OtherError (err_name e) (err_message e))
  end.

Record GistFile := { raw_url : string }.

(** The body of a gist response: an object that may lack [files]. *)
Record GistJson := { files : Nullable (list (string * GistFile)) }.

(** A [fetch] response: its status and what [json()] and [text()]
    resolve to. *)
Record Response := {
  status : Z;
  json : Outcome GistJson;
  text : Outcome string
}.

(** The result of [gQuery(GetSourceFileDocument, ...)]. *)
Record QueryResult := {
  result_data : Nullable GetSourceFileQuery
}.

(** The network as the service sees it: [fetch] by URL, and the
    [GetSourceFile] query by its [id] variable and access token. *)
Record Gateway := {
  fetch : string -> Outcome Response;
  gQuery_GetSourceFile :
    Nullable string -> Nullable string -> Outcome QueryResult
}.

Fixpoint lookupFile (name : string) (fs : list (string * GistFile))
  : option GistFile :=
  match fs with
  | [] => None
  | (k, f) :: rest => if k =? name then Some f else lookupFile name rest
  end.

(** [json.files['machine.js'].raw_url]: where the body has no [files],
    reading ['machine.js'] off it throws a [TypeError]; where [files] has
    no such file, reading [raw_url] off the missing file does. *)
Definition machineJsRawUrl (world : World) (j : GistJson) : Result string :=
  match files j with
  | Val fs =>
      match lookupFile "machine.js" fs with
      | Some f => Ok (raw_url f)
      | None =>
          Throw (OtherError "TypeError"
                   (typeErrorMessage world "undefined" "raw_url"))
      end
  | Null =>
      Throw (OtherError "TypeError"
               (typeErrorMessage world "null" "machine.js"))
  | Undefined =>
      Throw (OtherError "TypeError"
               (typeErrorMessage world "undefined" "machine.js"))
  end.

(** [params.auth.session()?.access_token]. *)
Definition accessToken (world : World) : Nullable string :=
  match session world with
  | Val s => Val (access_token s)
  | _ => Undefined
  end.

(** [result.data?.getSourceFile]. *)
Definition fetchedSourceFile (r : QueryResult) : Nullable SourceFileFragment :=
  match result_data r with
  | Val d => getSourceFile d
  | _ => Undefined
  end.

(** [loadSourceContent]: [Ok e] when the service sends [e] back to the
    machine and returns, [Throw err] when its promise rejects with
    [err]. *)
Definition loadSourceContent (world : World) (gw : Gateway) (ctx : Context)
  : Result Event :=
  match sourceProvider ctx with
  | Some gist =>
      await response <-
        awaited (fetch gw ("https://api.github.com/gists/"
                           ++ toStr (sourceID ctx)));
      if (status response =? 404)%Z
      then Throw (NotFoundError "Gist not found")
      else
        await json <- awaited (json response);
        await url <- machineJsRawUrl world json;
        await gistResponse <- awaited (fetch gw url);
        await rawSource <- awaited (text gistResponse);
        Ok (LOADED_FROM_GIST rawSource)
  | Some registry =>
      await result <-
        awaited (gQuery_GetSourceFile gw (sourceID ctx) (accessToken world));
      match result_data result with
      | Val d =>
          if BooleanObj (getSourceFile d)
          then Ok (LOADED_FROM_REGISTRY d)
          else Throw (NotFoundError "Source not found in Registry")
      | _ => Throw (NotFoundError "Source not found in Registry")
      end
  | None =>
      Throw (OtherError "Error" "It should be impossible to reach this.")
  end.

(** What the machine receives when the service settles: the event sent
    back, or the error event of the invocation. *)
Definition settled (r : Result Event) : Event :=
  match r with
  | Ok e => e
  | Throw err => error_loadSourceContent err
  end.

(** Modelled from the spec: [updateQueryParamsWithoutReload] is imported
    from [./utils], whose code is missing.  Per the spec ("strips the
    id/gist query parameters from the URL ... without forcing a page
    reload") it applies its callback to the query parameters of the
    current URL and installs the result.  [applyQueryUpdates] is the
    query string left by the calls to it among the effects [fx]. *)
Fixpoint applyQueryUpdates (fx : list Effect) (queries : Queries) : Queries :=
  match fx with
  | [] => queries
  | UpdateQueryParamsWithoutReload callback :: rest =>
      applyQueryUpdates rest (callback queries)
  | _ :: rest => applyQueryUpdates rest queries
  end.

(** Delivering a list of events in turn; each event comes with the world
    its guards read.  The effects accumulate in order. *)
Fixpoint run (params : Params) (cfg : Config) (events : list (World * Event))
  : Step :=
  match events with
  | [] => (cfg, [])
  | (world, e) :: rest =>
      let '(cfg1, fx1) := transition params world cfg e in
      let '(cfg2, fx2) := run params cfg1 rest in
      (cfg2, (fx1 ++ fx2)%list)
  end.

(** ** The drag machine ([dragMachine] of [CanvasContainer]) *)

Module Drag.

(** Pointer coordinates ([pageX], [pageY]) are JavaScript numbers.
    They are integers here: on whole pixel values below 2^53 the
    subtraction of the machine is exact integer subtraction. *)
Record Point := { x : Z; y : Z }.

(** [EmbedContext]: the fields the machine reads. *)
Record EmbedContext := {
  isEmbedded : bool;
  pan : bool
}.

Record Context := {
  startPoint : Point;
  dragPoint : Point;
  dx : Z;
  dy : Z;
  embed : option EmbedContext
}.

(** [dragModel.initialContext]. *)
Definition initialContext : Context :=
  {| startPoint := {| x := 0; y := 0 |};
     dragPoint := {| x := 0; y := 0 |};
     dx := 0;
     dy := 0;
     embed := None |}.

Inductive Event :=
| LOCK
| RELEASE
| GRAB (point : Point)
| DRAG (point : Point)
| UNGRAB.

Inductive Locked := idle | grabbed | dragging.

Inductive StateValue :=
| in_embedded_mode
| released
| locked (s : Locked).

Inductive Effect :=
| disableTextSelection
| enableTextSelection.

Record Config := {
  value : StateValue;
  context : Context
}.

(** The guard of [checking_embedded_mode]:
    [!!ctx.embed?.isEmbedded && !ctx.embed.pan]. *)
Definition embeddedWithoutPan (ctx : Context) : bool :=
  match embed ctx with
  | Some em => isEmbedded em && negb (pan em)
  | None => false
  end.

(** The machine as [CanvasContainer] starts it: [withContext] sets
    [embed], and [checking_embedded_mode] is left at once. *)
Definition start (em : option EmbedContext) : Config :=
  let ctx :=
    {| startPoint := startPoint initialContext;
       dragPoint := dragPoint initialContext;
       dx := dx initialContext;
       dy := dy initialContext;
       embed := em |} in
  {| value := if embeddedWithoutPan ctx then in_embedded_mode else released;
     context := ctx |}.

(** The [assign] of [idle]'s [GRAB] transition. *)
Definition assignGrab (ctx : Context) (point : Point) : Context :=
  {| startPoint := point;
     dragPoint := point;
     dx := dx ctx;
     dy := dy ctx;
     embed := embed ctx |}.

(** The entry [assign] of [dragging]: every property assigner reads the
    context as it was before the action. *)
Definition assignDrag (ctx : Context) (point : Point) : Context :=
  {| startPoint := startPoint ctx;
     dragPoint := point;
     dx := x (dragPoint ctx) - x point;
     dy := y (dragPoint ctx) - y point;
     embed := embed ctx |}.

Definition transition (cfg : Config) (e : Event) : Config * list Effect :=
  let ctx := context cfg in
  match value cfg, e with
  | released, LOCK =>
      ({| value := locked idle; context := ctx |}, [disableTextSelection])
  | locked idle, GRAB point =>
      ({| value := locked grabbed; context := assignGrab ctx point |}, [])
  | locked grabbed, DRAG point =>
      ({| value := locked dragging; context := assignDrag ctx point |}, [])
  | locked grabbed, UNGRAB =>
      ({| value := locked idle; context := ctx |}, [])
  | locked dragging, DRAG point =>
      ({| value := locked dragging; context := assignDrag ctx point |}, [])
  | locked dragging, UNGRAB =>
      ({| value := locked idle; context := ctx |}, [])
  | locked _, RELEASE =>
      ({| value := released; context := ctx |}, [enableTextSelection])
  | _, _ => (cfg, [])
  end.

(** The state after a list of events. *)
Definition after (cfg : Config) (events : list Event) : Config :=
  fold_left (fun c e => fst (transition c e)) events cfg.

(** *** The keyboard listeners of [invokeDetectLock] and
    [invokeDetectRelease] *)

Inductive ListenerEffect :=
| preventDefault
| sendBack (e : Event).

Section Keyboard.

(** [isTextInputLikeElement] is imported from [./utils]; the
    listeners are stated for any such predicate on elements. *)
Variable Element : Type.
Variable isTextInputLikeElement : Element -> bool.

Record KeyboardEvent := {
  code : string;
  target : Element
}.

Definition keydownListener (e : KeyboardEvent) : list ListenerEffect :=
  if isTextInputLikeElement (target e) then []
  else if code e =? "Space" then [preventDefault; sendBack LOCK]
  else [].

Definition keyupListener (e : KeyboardEvent) : list ListenerEffect :=
  if code e =? "Space" then [preventDefault; sendBack RELEASE]
  else [].

(** The events a listener sent back, delivered to the machine. *)
Fixpoint deliver (cfg : Config) (fx : list ListenerEffect) : Config :=
  match fx with
  | [] => cfg
  | sendBack e :: rest => deliver (fst (transition cfg e)) rest
  | preventDefault :: rest => deliver cfg rest
  end.

(** A [keydown] on the window: [invokeDetectLock] listens while the
    machine is in [released]. *)
Definition keydown (cfg : Config) (e : KeyboardEvent) : Config :=
  match value cfg with
  | released => deliver cfg (keydownListener e)
  | _ => cfg
  end.

(** A [keyup] on the window: [invokeDetectRelease] listens while the
    machine is in [locked]. *)
Definition keyup (cfg : Config) (e : KeyboardEvent) : Config :=
  match value cfg with
  | locked _ => deliver cfg (keyupListener e)
  | _ => cfg
  end.

End Keyboard.

Arguments code {Element} _.
Arguments target {Element} _.
Arguments keydownListener {Element} isTextInputLikeElement e.
Arguments keyupListener {Element} e.
Arguments keydown {Element} isTextInputLikeElement cfg e.
Arguments keyup {Element} cfg e.

End Drag.

(** ** Predicates used in the statements *)

(** The machine is in [source_loaded] or in [no_source]. *)
Definition acceptsEdits (v : StateValue) : bool :=
  match v with
  | with_source (source_loaded _) | no_source _ => true
  | _ => false
  end.

(** An edit, or a change of the logged-in identity (which re-runs the
    ownership check of [source_loaded]). *)
Definition isEditOrIdentityChange (e : Event) : bool :=
  match e with
  | CODE_UPDATED _ _ | LOGGED_IN_USER_ID_UPDATED _ => true
  | _ => false
  end.

(** The [code] of the last [CODE_UPDATED] among the events. *)
Fixpoint lastCode (events : list (World * Event)) : option string :=
  match events with
  | [] => None
  | (_, e) :: rest =>
      match lastCode rest, e with
      | Some code, _ => Some code
      | None, CODE_UPDATED code _ => Some code
      | None, _ => None
      end
  end.

(** The effect forwards an event to an invoked machine. *)
Definition isForwardTo (fx : Effect) : bool :=
  match fx with
  | ForwardTo _ _ => true
  | _ => false
  end.

(** ** Sample inputs *)

(** The wording of one engine for a property read off [undefined] or
    [null]. *)
Definition cannotReadProperties (base property : string) : string :=
  "Cannot read properties of " ++ base ++ " (reading '" ++ property ++ "')".

Definition loggedOut : World :=
  {| isOnClientSide := true;
     window := Some [];
     session := Null;
     getSourceRawContent := fun _ _ => Null;
     typeErrorMessage := cannotReadProperties |}.

Definition loggedIn : World :=
  {| isOnClientSide := true;
     window := Some [];
     session := Val {| access_token := "token" |};
     getSourceRawContent := fun _ _ => Null;
     typeErrorMessage := cannotReadProperties |}.

Definition standalone : Params :=
  {| data := Undefined; isEmbedded := false |}.

Definition embedded : Params :=
  {| data := Undefined; isEmbedded := true |}.

Definition abc123 := "abc123".

(** A browser on the legacy URL [?id=abc123]. *)
Definition onLegacyUrl : World :=
  {| isOnClientSide := true;
     window := Some [("id", abc123)];
     session := Null;
     getSourceRawContent := fun _ _ => Null;
     typeErrorMessage := cannotReadProperties |}.

(** A browser on a URL with an empty [gist] parameter: [?gist=&id=abc123]. *)
Definition onEmptyGistUrl : World :=
  {| isOnClientSide := true;
     window := Some [("gist", ""); ("id", abc123)];
     session := Null;
     getSourceRawContent := fun _ _ => Null;
     typeErrorMessage := cannotReadProperties |}.

(** A browser on [?gist=g1&id=abc123]. *)
Definition onGistAndIdUrl : World :=
  {| isOnClientSide := true;
     window := Some [("gist", "g1"); ("id", abc123)];
     session := Null;
     getSourceRawContent := fun _ _ => Null;
     typeErrorMessage := cannotReadProperties |}.

(** A source named Foo, loaded from the registry. *)
Definition fooContext : Context :=
  {| sourceID := Val abc123;
     sourceProvider := Some registry;
     sourceRawContent := Val "createMachine({})";
     sourceRegistryData := Null;
     notifRef := Val (Spawned notifMachine);
     loggedInUserId := Null;
     desiredMachineName := Val "Foo" |}.

(** A registry that has no record, and a gist host that answers 404. *)
Definition nothingFound : Gateway :=
  {| fetch := fun _ =>
       Fulfilled {| status := 404;
                    json := Rejected {| err_name := "SyntaxError";
                                        err_message := "Unexpected token" |};
                    text := Fulfilled "Not Found" |};
     gQuery_GetSourceFile := fun _ _ =>
       Fulfilled {| result_data := Val {| getSourceFile := Null |} |} |}.

(** A network that is down. *)
Definition offline : Gateway :=
  {| fetch := fun _ =>
       Rejected {| err_name := "TypeError";
                   err_message := "Failed to fetch" |};
     gQuery_GetSourceFile := fun _ _ =>
       Rejected {| err_name := "TypeError";
                   err_message := "Failed to fetch" |} |}.

(** An element is told apart by its tag name; text fields are [INPUT]
    and [TEXTAREA] elements. *)
Definition isTextField (tagName : string) : bool :=
  (tagName =? "INPUT") || (tagName =? "TEXTAREA").

Definition spaceInTextField : Drag.KeyboardEvent string :=
  {| Drag.code := "Space"; Drag.target := "INPUT" |}.

(** ** The [createSourceFile] and [updateSourceFile] services *)

(** [v || '']. *)
Definition orEmpty (v : Nullable string) : string :=
  if Boolean v then toStr v else "".

(** The result of a mutation sent through [gQuery]: [{ data?: ... }]. *)
Record MutationResult (A : Type) := {
  mutation_data : Nullable A
}.
Arguments mutation_data {A} _.

Record ForkSourceFileMutation := {
  forkSourceFile : Nullable SourceFileFragment
}.

Record CreateSourceFileMutation := {
  createSourceFile : Nullable SourceFileFragment
}.

(** The variables of the three mutations. *)
Record ForkVariables := {
  fork_text : string;
  fork_name : string;
  forkFromId : Nullable string
}.

Record CreateVariables := {
  create_text : string;
  create_name : string
}.

Record UpdateVariables := {
  update_id : Nullable string;
  update_text : Nullable string
}.

(** [gQuery] on the three mutation documents, by variables and access
    token. *)
Record Registry := {
  gQuery_ForkSourceFile :
    ForkVariables -> Nullable string
    -> Outcome (MutationResult ForkSourceFileMutation);
  gQuery_CreateSourceFile :
    CreateVariables -> Nullable string
    -> Outcome (MutationResult CreateSourceFileMutation);
  gQuery_UpdateSourceFile :
    UpdateVariables -> Nullable string
    -> Outcome (MutationResult UpdateSourceFileMutation)
}.

Module Services.

(** The test of [createSourceFile]:
    [ctx.sourceID && ctx.sourceProvider === 'registry']. *)
Definition forksRegistrySource (ctx : Context) : bool :=
  Boolean (sourceID ctx)
  && match sourceProvider ctx with
     | Some registry => true
     | _ => false
     end.

(** [createSourceFile]: what its promise settles with. *)
Definition createSourceFile (world : World) (reg : Registry) (ctx : Context)
  : Result (Nullable SourceFileFragment) :=
  if forksRegistrySource ctx then
    await res <-
      awaited (gQuery_ForkSourceFile reg
                 {| fork_text := orEmpty (sourceRawContent ctx);
                    fork_name := orEmpty (desiredMachineName ctx);
                    forkFromId := sourceID ctx |}
                 (accessToken world));
    Ok (match mutation_data res with
        | Val d => forkSourceFile d
        | _ => Undefined
        end)
  else
    await res <-
      awaited (gQuery_CreateSourceFile reg
                 {| create_text := orEmpty (sourceRawContent ctx);
                    create_name := orEmpty (desiredMachineName ctx) |}
                 (accessToken world));
    Ok (match mutation_data res with
        | Val d => createSourceFile d
        | _ => Undefined
        end).

(** [updateSourceFile]: it queries only when started by [SAVE]. *)
Definition updateSourceFile (world : World) (reg : Registry) (ctx : Context)
  (e : Event) : Result (Nullable UpdateSourceFileMutation) :=
  match e with
  | SAVE =>
      await res <-
        awaited (gQuery_UpdateSourceFile reg
                   {| update_id := sourceID ctx;
                      update_text := sourceRawContent ctx |}
                   (accessToken world));
      Ok (mutation_data res)
  | _ => Ok Undefined
  end.

(** The event the machine receives when [createSourceFile] settles. *)
Definition created (r : Result (Nullable SourceFileFragment)) : Event :=
  match r with
  | Ok d => done_createSourceFile d
  | Throw err => error_createSourceFile err
  end.

(** The event the machine receives when [updateSourceFile] settles.  The
    [onDone] assigner reads [event.data.updateSourceFile]; where the
    promise resolves without data that read throws, and no event is
    given here. *)
Definition updated (r : Result (Nullable UpdateSourceFileMutation))
  : option Event :=
  match r with
  | Ok (Val d) => Some (done_updateSourceFile d)
  | Ok _ => None
  | Throw err => Some (error_updateSourceFile err)
  end.

End Services.

(** ** Selectors and tags of the source machine *)

Definition initialMachineCode : string :=
  "import { createMachine } from 'xstate';".

(** [getEditorValue]: [state.context.sourceRawContent || initialMachineCode]. *)
Definition getEditorValue (state : Config) : string :=
  if Boolean (sourceRawContent (context state))
  then toStr (sourceRawContent (context state))
  else initialMachineCode.

Definition getShouldImmediateUpdate (state : Config) : bool :=
  Boolean (sourceRawContent (context state)).

(** The [tags] of the state nodes of a resting state. *)
Definition tags (v : StateValue) : list string :=
  match v with
  | no_source no_cached_source => ["canShowWelcomeMessage"; "noCachedSource"]
  | creating pendingSave => ["persisting"]
  | updating => ["persisting"]
  | _ => []
  end.

(** [state.hasTag(tag)]. *)
Definition hasTag (tag : string) (v : StateValue) : bool :=
  existsb (String.eqb tag) (tags v).

(** ** The canvas: pointer and wheel handlers of [CanvasContainer], and
    what [CanvasView] shows *)

Module Canvas.

(** [EmbedContext], with the fields [CanvasContainer] and [CanvasView]
    read. *)
Record EmbedContext := {
  isEmbedded : bool;
  pan : bool;
  zoom : bool;
  controls : bool
}.

(** The part of it the drag machine reads. *)
Definition dragEmbed (embed : option EmbedContext)
  : option Drag.EmbedContext :=
  match embed with
  | Some em =>
      Some {| Drag.isEmbedded := isEmbedded em; Drag.pan := pan em |}
  | None => None
  end.

Inductive ZoomFactor := slow.

(** The events [CanvasContainer] sends to the canvas service. *)
Inductive CanvasEvent :=
| ZOOM_OUT (x y : Z) (factor : ZoomFactor)
| ZOOM_IN (x y : Z) (factor : ZoomFactor)
| PAN (dx dy : Z).

(** The type of an event of the drag machine. *)
Definition eventType (e : Drag.Event) : string :=
  match e with
  | Drag.LOCK => "LOCK"
  | Drag.RELEASE => "RELEASE"
  | Drag.GRAB _ => "GRAB"
  | Drag.DRAG _ => "DRAG"
  | Drag.UNGRAB => "UNGRAB"
  end.

(** [state.nextEvents]: the events the active state nodes have
    transitions for. *)
Definition nextEvents (v : Drag.StateValue) : list string :=
  match v with
  | Drag.in_embedded_mode => []
  | Drag.released => ["LOCK"]
  | Drag.locked Drag.idle => ["RELEASE"; "GRAB"]
  | Drag.locked Drag.grabbed => ["RELEASE"; "DRAG"; "UNGRAB"]
  | Drag.locked Drag.dragging => ["RELEASE"; "DRAG"; "UNGRAB"]
  end.

(** [array.includes(name)]. *)
Definition includes (name : string) (l : list string) : bool :=
  existsb (String.eqb name) l.

(** [state.hasTag('dragging')]. *)
Definition hasTagDragging (v : Drag.StateValue) : bool :=
  match v with
  | Drag.locked Drag.dragging => true
  | _ => false
  end.

(** The pointer handlers: the event each sends to the drag machine, if
    any. *)
Definition onPointerDown (state : Drag.Config) (page : Drag.Point)
  : option Drag.Event :=
  if includes "GRAB" (nextEvents (Drag.value state))
  then Some (Drag.GRAB page) else None.

Definition onPointerMove (state : Drag.Config) (page : Drag.Point)
  : option Drag.Event :=
  if includes "DRAG" (nextEvents (Drag.value state))
  then Some (Drag.DRAG page) else None.

Definition onPointerUp (state : Drag.Config) : option Drag.Event :=
  if includes "UNGRAB" (nextEvents (Drag.value state))
  then Some Drag.UNGRAB else None.

(** The effect that follows every new state of the drag machine: while
    the state has the tag [dragging], its delta is sent as a [PAN]. *)
Definition panEffect (state : Drag.Config) : list CanvasEvent :=
  if hasTagDragging (Drag.value state)
  then [PAN (Drag.dx (Drag.context state)) (Drag.dy (Drag.context state))]
  else [].

(** The drag machine on a list of events, with the effects it runs. *)
Fixpoint run (cfg : Drag.Config) (events : list Drag.Event)
  : Drag.Config * list Drag.Effect :=
  match events with
  | [] => (cfg, [])
  | e :: rest =>
      let '(cfg1, fx1) := Drag.transition cfg e in
      let '(cfg2, fx2) := run cfg1 rest in
      (cfg2, (fx1 ++ fx2)%list)
  end.

(** The [PAN] events sent while the machine processes a list of events.
    An event the current state has no transition for leaves the state
    object as it is, so that no effect follows it. *)
Fixpoint pans (cfg : Drag.Config) (events : list Drag.Event)
  : list CanvasEvent :=
  match events with
  | [] => []
  | e :: rest =>
      if includes (eventType e) (nextEvents (Drag.value cfg))
      then
        let cfg1 := fst (Drag.transition cfg e) in
        (panEffect cfg1 ++ pans cfg1 rest)%list
      else pans cfg rest
  end.

(** The sum of the deltas of a list of [PAN] events. *)
Fixpoint panTotal (l : list CanvasEvent) : Z * Z :=
  match l with
  | [] => (0, 0)%Z
  | PAN dx dy :: rest =>
      let '(tx, ty) := panTotal rest in ((dx + tx)%Z, (dy + ty)%Z)
  | _ :: rest => panTotal rest
  end.

(** What the user does on the canvas. *)
Inductive Input (Element : Type) :=
| KeyDown (e : Drag.KeyboardEvent Element)
| KeyUp (e : Drag.KeyboardEvent Element)
| PointerDown (page : Drag.Point)
| PointerMove (page : Drag.Point)
| PointerUp.
Arguments KeyDown {Element} e.
Arguments KeyUp {Element} e.
Arguments PointerDown {Element} page.
Arguments PointerMove {Element} page.
Arguments PointerUp {Element}.

(** The events a listener sent back. *)
Fixpoint sentBack (fx : list Drag.ListenerEffect) : list Drag.Event :=
  match fx with
  | [] => []
  | Drag.sendBack e :: rest => e :: sentBack rest
  | Drag.preventDefault :: rest => sentBack rest
  end.

Definition optionToList {A : Type} (o : option A) : list A :=
  match o with
  | Some a => [a]
  | None => []
  end.

Section Inputs.

Variable Element : Type.
Variable isTextInputLikeElement : Element -> bool.

(** The events an input makes the component send to the drag machine:
    the key listeners exist while their state invokes them, the pointer
    handlers test [nextEvents]. *)
Definition sent (state : Drag.Config) (input : Input Element)
  : list Drag.Event :=
  match input with
  | KeyDown e =>
      match Drag.value state with
      | Drag.released =>
          sentBack (Drag.keydownListener isTextInputLikeElement e)
      | _ => []
      end
  | KeyUp e =>
      match Drag.value state with
      | Drag.locked _ => sentBack (Drag.keyupListener e)
      | _ => []
      end
  | PointerDown page => optionToList (onPointerDown state page)
  | PointerMove page => optionToList (onPointerMove state page)
  | PointerUp => optionToList (onPointerUp state)
  end.

(** A session of inputs: the state it leaves and the [PAN] events it
    sends. *)
Fixpoint session (state : Drag.Config) (inputs : list (Input Element))
  : Drag.Config * list CanvasEvent :=
  match inputs with
  | [] => (state, [])
  | input :: rest =>
      let events := sent state input in
      let '(state2, pans2) := session (Drag.after state events) rest in
      (state2, (pans state events ++ pans2)%list)
  end.

End Inputs.

Arguments sent {Element} isTextInputLikeElement state input.
Arguments session {Element} isTextInputLikeElement state inputs.

(** *** The wheel handler *)

Record WheelEvent := {
  metaKey : bool;
  ctrlKey : bool;
  deltaX : Z;
  deltaY : Z;
  clientX : Z;
  clientY : Z
}.

Section Wheel.

(** [isWithPlatformMetaKey] is imported from [./utils]; the handler is
    stated for any such test of a wheel event. *)
Variable isWithPlatformMetaKey : WheelEvent -> bool.

(** [onCanvasWheel]: whether it calls [preventDefault], and the event it
    sends to the canvas service, if any. *)
Definition onCanvasWheel (embed : option EmbedContext) (e : WheelEvent)
  : bool * option CanvasEvent :=
  let isWithMetaKey := isWithPlatformMetaKey e in
  let embedded :=
    match embed with
    | Some em => isEmbedded em
    | None => false
    end in
  let isEmbeddedWithoutZoom :=
    isWithMetaKey && embedded
    && match embed with
       | Some em => negb (zoom em)
       | None => false
       end in
  let isEmbeddedWithoutPan :=
    negb isWithMetaKey && embedded
    && match embed with
       | Some em => negb (pan em)
       | None => false
       end in
  (isWithMetaKey,
   if isEmbeddedWithoutPan || isEmbeddedWithoutZoom then None
   else if isWithMetaKey then
     if (deltaY e >? 0)%Z
     then Some (ZOOM_OUT (clientX e) (clientY e) slow)
     else if (deltaY e <? 0)%Z
     then Some (ZOOM_IN (clientX e) (clientY e) slow)
     else None
   else if negb (metaKey e) && negb (ctrlKey e)
   then Some (PAN (deltaX e) (deltaY e))
   else None).

End Wheel.

(** *** What [CanvasView] shows *)

(** The header: [!embed?.isEmbedded]. *)
Definition showsHeader (embed : option EmbedContext) : bool :=
  match embed with
  | Some em => negb (isEmbedded em)
  | None => true
  end.

(** The controls: [!(embed?.isEmbedded && !embed.controls)]. *)
Definition showsControls (embed : option EmbedContext) : bool :=
  match embed with
  | Some em => negb (isEmbedded em && negb (controls em))
  | None => true
  end.

(** The reset button is disabled:
    [embed?.isEmbedded && !embed.zoom && !embed.pan]. *)
Definition resetDisabled (embed : option EmbedContext) : bool :=
  match embed with
  | Some em => isEmbedded em && negb (zoom em) && negb (pan em)
  | None => false
  end.

(** The welcome area: [isEmpty && canShowWelcomeMessage]. *)
Definition showsWelcomeArea (isEmpty : bool) (sourceState : Config) : bool :=
  isEmpty && hasTag "canShowWelcomeMessage" (value sourceState).

End Canvas.

(** ** More sample inputs *)

(** A registry that stores what it is sent under the id [new1]. *)
Definition newRecord (text : string) : SourceFileFragment :=
  {| sf_id := "new1";
     sf_text := text;
     sf_updatedAt := Val "2021-09-01";
     sf_owner := Val {| owner_id := "u1" |} |}.

Definition accepting : Registry :=
  {| gQuery_ForkSourceFile := fun v _ =>
       Fulfilled
         {| mutation_data :=
              Val {| forkSourceFile := Val (newRecord (fork_text v)) |} |};
     gQuery_CreateSourceFile := fun v _ =>
       Fulfilled
         {| mutation_data :=
              Val {| createSourceFile := Val (newRecord (create_text v)) |} |};
     gQuery_UpdateSourceFile := fun v _ =>
       Fulfilled
         {| mutation_data :=
              Val {| updateSourceFile := newRecord (toStr (update_text v)) |}
         |} |}.

(** A gist host whose gist has a file, but not [machine.js]. *)
Definition gistWithoutMachineJs : Gateway :=
  {| fetch := fun _ =>
       Fulfilled
         {| status := 200;
            json := Fulfilled
                      {| files := Val [("readme.md", {| raw_url := "u" |})] |};
            text := Fulfilled "" |};
     gQuery_GetSourceFile := fun _ _ =>
       Fulfilled {| result_data := Undefined |} |}.

(** A gist host whose gist has the file [machine.js]. *)
Definition gistWithMachineJs : Gateway :=
  {| fetch := fun url =>
       Fulfilled
         {| status := 200;
            json := Fulfilled
                      {| files := Val [("machine.js", {| raw_url := "raw" |})] |};
            text := Fulfilled "createMachine({ id: 'gist' })" |};
     gQuery_GetSourceFile := fun _ _ =>
       Fulfilled {| result_data := Undefined |} |}.

(** A registry that has the record [newRecord "stored"]. *)
Definition registryWithRecord : Gateway :=
  {| fetch := fun _ =>
       Rejected {| err_name := "TypeError";
                   err_message := "Failed to fetch" |};
     gQuery_GetSourceFile := fun _ _ =>
       Fulfilled
         {| result_data :=
              Val {| getSourceFile := Val (newRecord "stored") |} |} |}.

Definition embeddedWithoutPanOrZoom : Canvas.EmbedContext :=
  {| Canvas.isEmbedded := true;
     Canvas.pan := false;
     Canvas.zoom := false;
     Canvas.controls := true |}.

(** ** What the further statements speak of *)

(** The content after the entry action of [source_loaded]: the cached
    content where the cache has some, the content at hand otherwise. *)
Definition overlaid (world : World) (ctx : Context) : Nullable string :=
  let cached :=
    getSourceRawContent world (sourceID ctx)
      (match sourceRegistryData ctx with
       | Val d => sf_updatedAt d
       | _ => Undefined
       end) in
  if Boolean cached then cached else sourceRawContent ctx.

(** The owner of the registry record at hand is the logged-in user. *)
Definition ownedBy (record : Nullable SourceFileFragment)
  (user : Nullable string) : bool :=
  match record, user with
  | Val r, Val u =>
      match sf_owner r with
      | Val o => negb (owner_id o =? "") && (owner_id o =? u)
      | _ => false
      end
  | _, _ => false
  end.

(** The effects of the source machine that touch the URL or the local
    cache. *)
Definition touchesUrlOrCache (fx : Effect) : bool :=
  match fx with
  | RedirectToNewUrlFromLegacyUrl
  | RemoveSourceRawContent _
  | RouterReplace _
  | UpdateQueryParamsWithoutReload _ => true
  | _ => false
  end.

(** [n] rounds of forking and closing the name chooser. *)
Fixpoint forkAndCancel (world : World) (n : nat) : list (World * Event) :=
  match n with
  | O => []
  | S k =>
      (world, FORK) :: (world, CLOSE_NAME_CHOOSER_MODAL)
      :: forkAndCancel world k
  end.

(** The number of times the drag machine switched text selection off,
    less the number of times it switched it back on. *)
Fixpoint selectionOff (fx : list Drag.Effect) : Z :=
  match fx with
  | [] => 0
  | Drag.disableTextSelection :: rest => 1 + selectionOff rest
  | Drag.enableTextSelection :: rest => selectionOff rest - 1
  end.

Definition isLocked (v : Drag.StateValue) : bool :=
  match v with
  | Drag.locked _ => true
  | _ => false
  end.

Definition isPointerInput {Element : Type} (input : Canvas.Input Element)
  : bool :=
  match input with
  | Canvas.PointerDown _ | Canvas.PointerMove _ | Canvas.PointerUp => true
  | _ => false
  end.

Definition isKeyDown {Element : Type} (input : Canvas.Input Element) : bool :=
  match input with
  | Canvas.KeyDown _ => true
  | _ => false
  end.

(** A wheel turned by (3, -7) at (100, 50), without any key. *)
Definition plainWheel : Canvas.WheelEvent :=
  {| Canvas.metaKey := false;
     Canvas.ctrlKey := false;
     Canvas.deltaX := 3;
     Canvas.deltaY := -7;
     Canvas.clientX := 100;
     Canvas.clientY := 50 |}.

(** A point in whole pixels of magnitude at most 2^52, and a [PAN] whose
    deltas are whole numbers of magnitude at most 2^53: on such points
    the subtraction the machine does on JavaScript numbers is the exact
    integer subtraction, and such deltas are what it yields. *)
Definition wholePixel (p : Drag.Point) : Prop :=
  (Z.abs (Drag.x p) <= 4503599627370496
   /\ Z.abs (Drag.y p) <= 4503599627370496)%Z.

Definition exactDelta (e : Canvas.CanvasEvent) : Prop :=
  match e with
  | Canvas.PAN dx dy =>
      (Z.abs dx <= 9007199254740992 /\ Z.abs dy <= 9007199254740992)%Z
  | _ => True
  end.

(** ** Strings *)

Lemma length_append (s1 s2 : string) :
  String.length (s1 ++ s2) = String.length s1 + String.length s2.
Proof.
  induction s1 as [|c s1 IH]; simpl; [reflexivity | now rewrite IH].
Qed.

Lemma substring_whole (s : string) : substring 0 (String.length s) s = s.
Proof.
  induction s as [|c s IH]; simpl; [reflexivity | now rewrite IH].
Qed.

Lemma substring_suffix (s1 s2 : string) :
  substring (String.length s1) (String.length s2) (s1 ++ s2) = s2.
Proof.
  induction s1 as [|c s1 IH]; simpl.
  - apply substring_whole.
  - exact IH.
Qed.

(** A string ends with [search] when it is some prefix followed by
    [search]. *)
Lemma endsWith_append (s search : string) :
  endsWith (s ++ search) search = true.
Proof.
  unfold endsWith. rewrite length_append.
  replace (String.length s + String.length search - String.length search)
    with (String.length s) by lia.
  destruct (Nat.ltb_spec (String.length s + String.length search)
              (String.length search)) as [Hlt | _]; [lia |].
  rewrite substring_suffix. apply String.eqb_refl.
Qed.

Lemma substring_split (n m : nat) (s : string) :
  n + m = String.length s ->
  exists p, s = p ++ substring n m s /\ String.length p = n.
Proof.
  revert s. induction n as [|n IH]; intros s H.
  - exists "". simpl in H. subst m. now rewrite substring_whole.
  - destruct s as [|c s]; simpl in H; [discriminate |].
    destruct (IH s) as [p [Hp Hl]]; [lia |].
    exists (String c p). simpl. split; [now rewrite <- Hp | now rewrite Hl].
Qed.

Lemma endsWith_inv (s search : string) :
  endsWith s search = true -> exists p, s = p ++ search.
Proof.
  unfold endsWith.
  destruct (Nat.ltb_spec (String.length s) (String.length search))
    as [_ | Hle]; [discriminate |].
  intro H. apply String.eqb_eq in H.
  destruct (substring_split (String.length s - String.length search)
              (String.length search) s) as [p [Hp _]]; [lia |].
  exists p. now rewrite H in Hp.
Qed.

Lemma append_nonempty (s1 s2 : string) :
  s2 <> "" -> (s1 ++ s2 =? "") = false.
Proof.
  intro H. apply String.eqb_neq. destruct s1; simpl; [exact H | discriminate].
Qed.

(** ** The notification actor *)

(** No transition changes [notifRef]. *)
Lemma transition_keeps_notifRef
  (params : Params) (world : World) (cfg : Config) (e : Event) :
  notifRef (context (fst (transition params world cfg e)))
  = notifRef (context cfg).
Proof.
  destruct cfg as [v ctx]. unfold transition.
  destruct v as [|[|[|]|]|[|]|[|]|]; destruct e; cbn; try reflexivity;
    unfold isLoggedIn, enter_no_source, enter_source_loaded, andThen,
      hasLocalStorageCachedSource, getLocalStorageCachedSource,
      codeUpdatedActions, choose, stay, andThen, assign;
    cbn;
    repeat match goal with
      | |- context [if ?b then _ else _] => destruct b; cbn
      | |- context [match ?x with _ => _ end] => destruct x; cbn
      end;
    reflexivity.
Qed.

(** The machine starts with the spawned notification machine in
    [notifRef]. *)
Lemma start_spawns_notifMachine (params : Params) (world : World) :
  notifRef (context (fst (start params world))) = Val (Spawned notifMachine).
Proof.
  unfold start, andThen, checking_if_on_legacy_url, checking_initial_data,
    checking_url, enter_no_source, enter_with_source, parseQueries,
    getLocalStorageCachedSource, hasLocalStorageCachedSource, assign, rest.
  cbn.
  repeat match goal with
    | |- context [if ?b then _ else _] => destruct b; cbn
    | |- context [match ?x with _ => _ end] => destruct x; cbn
    end;
  reflexivity.
Qed.

(** In every state reached from the start, [notifRef] is the spawned
    notification machine: what the machine sends to [notifRef] reaches
    it. *)
Lemma notifRef_is_notifMachine
  (params : Params) (world : World) (events : list (World * Event)) :
  notifRef (context (fst (run params (fst (start params world)) events)))
  = Val (Spawned notifMachine).
Proof.
  rewrite <- (start_spawns_notifMachine params world).
  generalize (fst (start params world)) as cfg.
  induction events as [|[w e] rest IH]; intro cfg; [reflexivity |].
  cbn [run].
  pose proof (transition_keeps_notifRef params w cfg e) as Hkeep.
  destruct (transition params w cfg e) as [cfg1 fx1]. cbn [fst] in Hkeep.
  specialize (IH cfg1).
  destruct (run params cfg1 rest) as [cfg2 fx2]. cbn [fst] in *.
  congruence.
Qed.

(** ** Forking a name *)

(** C2. [addForkOfToDesiredName] maps the name Foo to Foo (forked); it
    leaves a name that already ends in (forked), a null name and an empty
    name as they are; applying it twice gives what applying it once
    gives, so a repeated fork never appends the suffix twice.  It is the
    action run, on the way to [creating], when an authenticated user
    sends [SAVE] in [user_does_not_own_this_source] or [FORK] anywhere in
    [with_source]. *)
Theorem addForkOfToDesiredName_idempotent
  (params : Params) (world : World) (ctx : Context) (e : Event)
  (authenticated : isLoggedIn world = true) :
  addForkOfToDesiredName (set_desiredMachineName (Val "Foo") ctx) e
  = (set_desiredMachineName (Val "Foo (forked)") ctx, [])
  /\ (forall prefix : string,
        addForkOfToDesiredName
          (set_desiredMachineName (Val (prefix ++ "(forked)")) ctx) e
        = (set_desiredMachineName (Val (prefix ++ "(forked)")) ctx, []))
  /\ addForkOfToDesiredName (set_desiredMachineName Null ctx) e
     = (set_desiredMachineName Null ctx, [])
  /\ addForkOfToDesiredName (set_desiredMachineName (Val "") ctx) e
     = (set_desiredMachineName (Val "") ctx, [])
  /\ addForkOfToDesiredName (fst (addForkOfToDesiredName ctx e)) e
     = addForkOfToDesiredName ctx e
  /\ transition params world
       {| value := with_source (source_loaded user_does_not_own_this_source);
          context := ctx |} SAVE
     = ({| value := creating showingNameModal;
           context := fst (addForkOfToDesiredName ctx SAVE) |}, [])
  /\ (forall s : WithSource,
        transition params world
          {| value := with_source s; context := ctx |} FORK
        = ({| value := creating showingNameModal;
              context := fst (addForkOfToDesiredName ctx FORK) |}, [])).
Proof.
  assert (Happ : forall s, s ++ " (forked)" = (s ++ " ") ++ "(forked)").
  { intro s. induction s as [|c s IH]; simpl; [reflexivity | now rewrite IH]. }
  refine (conj _ (conj _ (conj _ (conj _ (conj _ (conj _ _)))))).
  - reflexivity.
  - intro prefix. unfold addForkOfToDesiredName, assign.
    cbn [desiredMachineName set_desiredMachineName].
    rewrite endsWith_append, orb_true_r. reflexivity.
  - reflexivity.
  - reflexivity.
  - unfold addForkOfToDesiredName, assign.
    destruct ctx as [sid provider raw reg nref uid [| |n]]; cbn;
      try reflexivity.
    destruct (n =? "") eqn:Hempty; cbn; [now rewrite Hempty |].
    destruct (endsWith n "(forked)") eqn:Hends; cbn;
      [now rewrite Hempty, Hends |].
    rewrite Happ, endsWith_append, orb_true_r. reflexivity.
  - unfold transition. cbn. unfold isLoggedIn in *. rewrite authenticated.
    unfold andThen. cbn.
    destruct (negb (Boolean (desiredMachineName ctx)) || _); reflexivity.
  - intro s. unfold transition.
    destruct s as [|[|]|]; cbn; unfold isLoggedIn in *; rewrite authenticated;
      unfold andThen; cbn;
      destruct (negb (Boolean (desiredMachineName ctx)) || _); reflexivity.
Qed.

(** The instance of C2 for a logged-in user forking the source named
    Foo. *)
Lemma addForkOfToDesiredName_idempotent_witness :
  isLoggedIn loggedIn = true
  /\ transition standalone loggedIn
       {| value := with_source (source_loaded user_does_not_own_this_source);
          context := fooContext |} SAVE
     = ({| value := creating showingNameModal;
           context := set_desiredMachineName (Val "Foo (forked)") fooContext |},
        []).
Proof.
  split; [reflexivity |].
  apply (addForkOfToDesiredName_idempotent standalone loggedIn fooContext SAVE).
  reflexivity.
Defined.

(** ** Saving while logged out *)

(** C4. A [SAVE] received while no session exists leaves the machine in
    the state it is in and leaves the whole context, so [sourceID],
    [sourceProvider] and [sourceRawContent], as it is, in each of
    [user_owns_this_source], [user_does_not_own_this_source] and
    [no_source]; its only effect is one
    [LOGGED_OUT_USER_ATTEMPTED_RESTRICTED_ACTION] sent to the parent. *)
Theorem unauthenticated_SAVE_only_notifies_parent
  (params : Params) (world : World) (ctx : Context)
  (unauthenticated : isLoggedIn world = false) :
  (forall s : SourceLoaded,
     transition params world
       {| value := with_source (source_loaded s); context := ctx |} SAVE
     = ({| value := with_source (source_loaded s); context := ctx |},
        [SendParent LOGGED_OUT_USER_ATTEMPTED_RESTRICTED_ACTION]))
  /\ (forall s : NoSource,
        transition params world
          {| value := no_source s; context := ctx |} SAVE
        = ({| value := no_source s; context := ctx |},
           [SendParent LOGGED_OUT_USER_ATTEMPTED_RESTRICTED_ACTION])).
Proof.
  unfold isLoggedIn in unauthenticated.
  split; intros [|]; unfold transition; cbn; unfold isLoggedIn;
    rewrite unauthenticated; reflexivity.
Qed.

Lemma unauthenticated_SAVE_only_notifies_parent_witness :
  isLoggedIn loggedOut = false
  /\ transition standalone loggedOut
       {| value := with_source (source_loaded user_owns_this_source);
          context := fooContext |} SAVE
     = ({| value := with_source (source_loaded user_owns_this_source);
           context := fooContext |},
        [SendParent LOGGED_OUT_USER_ATTEMPTED_RESTRICTED_ACTION]).
Proof.
  split; [reflexivity |].
  apply (unauthenticated_SAVE_only_notifies_parent standalone loggedOut
           fooContext).
  reflexivity.
Defined.

(** ** Dragging *)

(** C5. In [locked], [GRAB] at (10,10) sets [startPoint] and [dragPoint]
    to (10,10) and enters [grabbed]; the [DRAG] to (15,12) that follows
    enters [dragging] with [dx = 10 - 15 = -5] and [dy = 10 - 12 = -2];
    every further [DRAG] re-enters [dragging] with the stored
    [dragPoint] minus the new point, and stores the new point; [UNGRAB]
    returns to [idle]. *)
Theorem grab_then_drag_reports_delta (ctx : Drag.Context) :
  let p10 := {| Drag.x := 10; Drag.y := 10 |} in
  let p15 := {| Drag.x := 15; Drag.y := 12 |} in
  let start := {| Drag.value := Drag.locked Drag.idle; Drag.context := ctx |} in
  let grabbed := fst (Drag.transition start (Drag.GRAB p10)) in
  let dragged := fst (Drag.transition grabbed (Drag.DRAG p15)) in
  (Drag.value grabbed = Drag.locked Drag.grabbed
   /\ Drag.startPoint (Drag.context grabbed) = p10
   /\ Drag.dragPoint (Drag.context grabbed) = p10)
  /\ (Drag.value dragged = Drag.locked Drag.dragging
      /\ Drag.dx (Drag.context dragged) = (-5)%Z
      /\ Drag.dy (Drag.context dragged) = (-2)%Z
      /\ Drag.dragPoint (Drag.context dragged) = p15)
  /\ (forall (c : Drag.Context) (p : Drag.Point),
        let again :=
          fst (Drag.transition
                 {| Drag.value := Drag.locked Drag.dragging;
                    Drag.context := c |} (Drag.DRAG p)) in
        Drag.value again = Drag.locked Drag.dragging
        /\ Drag.dx (Drag.context again)
           = (Drag.x (Drag.dragPoint c) - Drag.x p)%Z
        /\ Drag.dy (Drag.context again)
           = (Drag.y (Drag.dragPoint c) - Drag.y p)%Z
        /\ Drag.dragPoint (Drag.context again) = p)
  /\ Drag.value (fst (Drag.transition dragged Drag.UNGRAB))
     = Drag.locked Drag.idle
  /\ Drag.value
       (Drag.after start [Drag.GRAB p10; Drag.DRAG p15; Drag.UNGRAB])
     = Drag.locked Drag.idle.
Proof.
  cbn. repeat split.
Qed.

(** ** Creating a source file *)

(** C6. When [createSourceFile] resolves with a record in [pendingSave],
    the machine asks, in this order, to remove the cache entry stored
    under the [sourceID] it had before, to replace the URL with the path
    of the record's id, and to broadcast the success notification; in
    between the first two the record's id and body become [sourceID] and
    [sourceRegistryData], with [sourceProvider] [registry]; and the
    machine rests in [user_owns_this_source]. *)
Theorem created_source_is_adopted
  (params : Params) (world : World) (ctx : Context)
  (record : SourceFileFragment) :
  let step :=
    transition params world
      {| value := creating pendingSave; context := ctx |}
      (done_createSourceFile (Val record)) in
  snd step
  = [RemoveSourceRawContent (sourceID ctx);
     RouterReplace ("/" ++ sf_id record);
     Send (BROADCAST "New file saved successfully!" success) (notifRef ctx)]
  /\ value (fst step) = with_source (source_loaded user_owns_this_source)
  /\ sourceID (context (fst step)) = Val (sf_id record)
  /\ sourceRegistryData (context (fst step)) = Val record
  /\ sourceProvider (context (fst step)) = Some registry
  /\ loggedInUserId (context (fst step)) = loggedInUserId ctx
  /\ desiredMachineName (context (fst step)) = desiredMachineName ctx
  /\ notifRef (context (fst step)) = notifRef ctx
  /\ context (fst step)
     = fst (getLocalStorageCachedSource world
              (set_sourceRegistryData (Val record)
                 (set_sourceProvider (Some registry)
                    (set_sourceID (Val (sf_id record)) ctx)))
              (done_createSourceFile (Val record))).
Proof.
  unfold transition, getLocalStorageCachedSource, assign. cbn.
  destruct (Boolean (getSourceRawContent world (Val (sf_id record))
                       (sf_updatedAt record)));
    cbn; repeat split.
Qed.

(** ** Reading the URL *)

(** C10, as stated, fails: on [?gist=&id=abc123] the query string holds
    both a [gist] and an [id] parameter, yet [parseQueries] takes the
    [id] branch, because the empty value of [gist] is falsy. *)
Lemma parseQueries_gist_first_counterexample :
  ~ (forall (world : World) (queries : Queries) (ctx : Context) (e : Event)
            (g i : string),
       window world = Some queries ->
       qget "gist" queries = Val g ->
       qget "id" queries = Val i ->
       sourceProvider (fst (parseQueries world ctx e)) = Some gist
       /\ sourceID (fst (parseQueries world ctx e)) = Val g).
Proof.
  intro claim.
  destruct (claim onEmptyGistUrl [("gist", ""); ("id", abc123)]
              initialContext xstate_init "" abc123
              eq_refl eq_refl eq_refl) as [provider _].
  discriminate provider.
Qed.

(** C10, amended.  Where a window exists and the first [gist] parameter
    of the query string has a non-empty value, [parseQueries] sets
    [sourceProvider] to [gist] and [sourceID] to that value and changes
    nothing else, whatever the [id] parameter is: the [gist] branch is
    tested first.  A [gist] parameter with an empty value counts as
    absent: a non-empty [id] parameter then makes the source a
    [registry] source of that id. *)
Theorem parseQueries_gist_first
  (world : World) (queries : Queries) (ctx : Context) (e : Event)
  (browser : window world = Some queries) :
  (forall g : string,
     qget "gist" queries = Val g ->
     g <> "" ->
     parseQueries world ctx e
     = (set_sourceProvider (Some gist) (set_sourceID (Val g) ctx), []))
  /\ (forall i : string,
        qget "gist" queries = Val "" ->
        qget "id" queries = Val i ->
        i <> "" ->
        parseQueries world ctx e
        = (set_sourceProvider (Some registry) (set_sourceID (Val i) ctx), [])).
Proof.
  unfold parseQueries, assign. rewrite browser. split.
  - intros g hasGist nonEmpty. rewrite hasGist. cbn.
    apply String.eqb_neq in nonEmpty. now rewrite nonEmpty.
  - intros i emptyGist hasId nonEmpty. rewrite emptyGist, hasId. cbn.
    apply String.eqb_neq in nonEmpty. now rewrite nonEmpty.
Qed.

Lemma parseQueries_gist_first_witness :
  (window onGistAndIdUrl = Some [("gist", "g1"); ("id", abc123)]
   /\ qget "id" [("gist", "g1"); ("id", abc123)] = Val abc123)
  /\ parseQueries onGistAndIdUrl fooContext xstate_init
     = (set_sourceProvider (Some gist) (set_sourceID (Val "g1") fooContext),
        [])
  /\ parseQueries onEmptyGistUrl fooContext xstate_init
     = (set_sourceProvider (Some registry)
          (set_sourceID (Val abc123) fooContext), []).
Proof.
  split; [split; reflexivity |]. split.
  - apply (parseQueries_gist_first onGistAndIdUrl
             [("gist", "g1"); ("id", abc123)] fooContext xstate_init eq_refl).
    + reflexivity.
    + discriminate.
  - apply (parseQueries_gist_first onEmptyGistUrl
             [("gist", ""); ("id", abc123)] fooContext xstate_init eq_refl).
    + reflexivity.
    + reflexivity.
    + discriminate.
Defined.

(** ** The legacy URL *)

(** Events never processed in [redirecting] other than by the root: the
    machine rests there, runs no effect and keeps the source as it
    is. *)
Lemma redirecting_rests (params : Params) (events : list (World * Event)) :
  forall ctx : Context,
    let step := run params {| value := redirecting; context := ctx |} events in
    value (fst step) = redirecting
    /\ snd step = []
    /\ sourceID (context (fst step)) = sourceID ctx
    /\ sourceProvider (context (fst step)) = sourceProvider ctx.
Proof.
  induction events as [|[world e] rest IH]; intro ctx.
  - cbn. repeat split.
  - cbn [run].
    assert (Hstep : exists ctx1,
               transition params world
                 {| value := redirecting; context := ctx |} e
               = ({| value := redirecting; context := ctx1 |}, [])
               /\ sourceID ctx1 = sourceID ctx
               /\ sourceProvider ctx1 = sourceProvider ctx).
    { destruct e; cbn; eexists; repeat split. }
    destruct Hstep as [ctx1 [Hstep [Hid Hprovider]]].
    rewrite Hstep. specialize (IH ctx1). cbn in IH.
    destruct (run params {| value := redirecting; context := ctx1 |} rest)
      as [cfg2 fx2].
    cbn in *. destruct IH as [Hv [Hfx [Hid2 Hprovider2]]].
    repeat split; congruence.
Qed.

(** C7, as stated, fails: started on [?id=abc123] in a browser, without
    server-supplied data, the machine redirects and then rests in
    [redirecting]; no sequence of events brings it to
    [with_source / loading_content]. *)
Lemma legacy_url_counterexample :
  ~ (exists events : list (World * Event),
       let cfg := fst (run standalone (fst (start standalone onLegacyUrl))
                         events) in
       value cfg = with_source loading_content
       /\ sourceProvider (context cfg) = Some registry
       /\ sourceID (context cfg) = Val abc123).
Proof.
  intros [events [Hvalue _]].
  change (fst (start standalone onLegacyUrl))
    with {| value := redirecting;
            context := set_notifRef (Val (Spawned notifMachine))
                         initialContext |} in Hvalue.
  destruct (redirecting_rests standalone events
              (set_notifRef (Val (Spawned notifMachine)) initialContext))
    as [Hrests _].
  rewrite Hrests in Hvalue. discriminate Hvalue.
Qed.

(** C7, amended.  Started in a browser on a URL with a non-empty [id]
    parameter and without server-supplied data, the machine runs
    [redirectToNewUrlFromLegacyUrl] once and rests in
    [checking_if_on_legacy_url.redirecting] with [sourceID] and
    [sourceProvider] null; whatever events follow, it stays there and
    runs nothing more.  A machine started with server-supplied data of a
    non-empty id, as on the page the redirect leads to, starts in
    [with_source / loading_content] with [sourceProvider] [registry] and
    that id as [sourceID], without redirecting. *)
Theorem legacy_url_redirects_once
  (params : Params) (world : World) (queries : Queries)
  (client : isOnClientSide world = true)
  (browser : window world = Some queries)
  (legacy : Boolean (qget "id" queries) = true)
  (noData : BooleanObj (data params) = false) :
  (snd (start params world) = [RedirectToNewUrlFromLegacyUrl]
   /\ value (fst (start params world)) = redirecting
   /\ sourceID (context (fst (start params world))) = Null
   /\ sourceProvider (context (fst (start params world))) = None)
  /\ (forall events : list (World * Event),
        let step := run params (fst (start params world)) events in
        value (fst step) = redirecting
        /\ snd step = []
        /\ sourceID (context (fst step)) = Null
        /\ sourceProvider (context (fst step)) = None)
  /\ (forall (served : SsrData) (embedded : bool) (world' : World),
        ssr_id served <> "" ->
        let step :=
          start {| data := Val served; isEmbedded := embedded |} world' in
        snd step = []
        /\ value (fst step) = with_source loading_content
        /\ sourceProvider (context (fst step)) = Some registry
        /\ sourceID (context (fst step)) = Val (ssr_id served)).
Proof.
  assert (Hstart : start params world
                   = ({| value := redirecting;
                         context := set_notifRef (Val (Spawned notifMachine))
                                      initialContext |},
                      [RedirectToNewUrlFromLegacyUrl])).
  { unfold start, andThen, checking_if_on_legacy_url, idOnQueryParams,
      machineContext.
    cbn. rewrite client, browser, legacy, noData. cbn.
    destruct (data params); try discriminate; reflexivity. }
  split; [| split].
  - rewrite Hstart. repeat split.
  - intro events. rewrite Hstart. cbn [fst].
    apply (redirecting_rests params events
             (set_notifRef (Val (Spawned notifMachine)) initialContext)).
  - intros served emb world' Hid.
    unfold start, andThen, checking_if_on_legacy_url, idOnQueryParams,
      checking_initial_data, machineContext, orNull.
    cbn. apply String.eqb_neq in Hid. rewrite Hid. cbn.
    destruct (negb (isOnClientSide world')); cbn;
      [| destruct (window world'); cbn; rewrite ?andb_false_r; cbn];
      rewrite Hid; cbn; repeat split.
Qed.

Lemma legacy_url_redirects_once_witness :
  (isOnClientSide onLegacyUrl = true
   /\ window onLegacyUrl = Some [("id", abc123)])
  /\ snd (start standalone onLegacyUrl) = [RedirectToNewUrlFromLegacyUrl]
  /\ value (fst (start standalone onLegacyUrl)) = redirecting
  /\ (let step :=
        start {| data := Val {| ssr_id := abc123; ssr_text := "" |};
                 isEmbedded := false |} loggedOut in
      value (fst step) = with_source loading_content
      /\ sourceProvider (context (fst step)) = Some registry
      /\ sourceID (context (fst step)) = Val abc123).
Proof.
  pose proof (legacy_url_redirects_once standalone onLegacyUrl
                [("id", abc123)] eq_refl eq_refl eq_refl eq_refl)
    as [[Hfx [Hvalue _]] [_ Hserved]].
  split; [split; reflexivity |].
  split; [exact Hfx |]. split; [exact Hvalue |].
  apply (Hserved {| ssr_id := abc123; ssr_text := "" |} false loggedOut).
  discriminate.
Defined.

(** ** Failed loads *)

(** Whatever was deleted from a query string is not found in it. *)
Lemma qget_qdelete_same (name : string) (queries : Queries) :
  qget name (qdelete name queries) = Null.
Proof.
  induction queries as [|[k v] rest IH]; cbn; [reflexivity |].
  destruct (k =? name) eqn:Hk; cbn; [exact IH | now rewrite Hk].
Qed.

Lemma qget_qdelete_other (name other : string) (queries : Queries) :
  qget name queries = Null -> qget name (qdelete other queries) = Null.
Proof.
  induction queries as [|[k v] rest IH]; cbn; [reflexivity |].
  destruct (k =? name) eqn:Hk; [discriminate |].
  intro H. destruct (k =? other); cbn; [auto | rewrite Hk; auto].
Qed.

Lemma deleteIdAndGist_clears (queries : Queries) :
  qget "id" (deleteIdAndGist queries) = Null
  /\ qget "gist" (deleteIdAndGist queries) = Null.
Proof.
  unfold deleteIdAndGist. split.
  - apply qget_qdelete_other, qget_qdelete_same.
  - apply qget_qdelete_same.
Qed.

(** The transition taken in [loading_content] when the load fails. *)
Lemma failed_load_step
  (params : Params) (world : World) (ctx : Context) (err : JsError) :
  transition params world
    {| value := with_source loading_content; context := ctx |}
    (error_loadSourceContent err)
  = ({| value := with_source source_error; context := ctx |},
     Send (BROADCAST (errToString err) error) (notifRef ctx)
     :: (if instanceofNotFoundError err
         then [UpdateQueryParamsWithoutReload deleteIdAndGist]
         else [])).
Proof.
  unfold transition. cbn. destruct (instanceofNotFoundError err); reflexivity.
Qed.

(** A load rejects with a [NotFoundError] in two cases only: the
    registry answered without a record, or the gist host answered with
    status 404. *)
Lemma not_found_only_when_absent
  (world0 : World) (gw : Gateway) (invokedWith : Context) (message : string) :
  loadSourceContent world0 gw invokedWith = Throw (NotFoundError message) ->
  (sourceProvider invokedWith = Some registry
   /\ message = "Source not found in Registry"
   /\ exists result : QueryResult,
        gQuery_GetSourceFile gw (sourceID invokedWith) (accessToken world0)
        = Fulfilled result
        /\ BooleanObj (fetchedSourceFile result) = false)
  \/ (sourceProvider invokedWith = Some gist
      /\ message = "Gist not found"
      /\ exists response : Response,
           fetch gw ("https://api.github.com/gists/"
                     ++ toStr (sourceID invokedWith))
           = Fulfilled response
           /\ status response = 404%Z).
Proof.
  unfold loadSourceContent.
  destruct (sourceProvider invokedWith) as [[|]|]; [| | discriminate].
  - destruct (fetch gw ("https://api.github.com/gists/"
                        ++ toStr (sourceID invokedWith)))
      as [response | e] eqn:Hfetch; cbn; [| discriminate].
    destruct (Z.eqb_spec (status response) 404) as [Hstatus | Hstatus].
    + intro H. injection H as <-. right.
      split; [reflexivity |]. split; [reflexivity |].
      exists response. split; [reflexivity | exact Hstatus].
    + destruct (json response) as [body | e]; cbn; [| discriminate].
      unfold machineJsRawUrl.
      destruct (files body) as [| |fs]; cbn; try discriminate.
      destruct (lookupFile "machine.js" fs) as [f |]; cbn; [| discriminate].
      destruct (fetch gw (raw_url f)) as [gistResponse | e]; cbn;
        [| discriminate].
      destruct (text gistResponse); cbn; discriminate.
  - destruct (gQuery_GetSourceFile gw (sourceID invokedWith)
                (accessToken world0)) as [result | e] eqn:Hquery; cbn;
      [| discriminate].
    intro H. left. split; [reflexivity |].
    destruct (result_data result) as [| |d] eqn:Hdata.
    + injection H as <-. split; [reflexivity |].
      exists result. split; [reflexivity |].
      unfold fetchedSourceFile. now rewrite Hdata.
    + injection H as <-. split; [reflexivity |].
      exists result. split; [reflexivity |].
      unfold fetchedSourceFile. now rewrite Hdata.
    + destruct (BooleanObj (getSourceFile d)) eqn:Hd; [discriminate |].
      injection H as <-. split; [reflexivity |].
      exists result. split; [reflexivity |].
      unfold fetchedSourceFile. now rewrite Hdata.
Qed.

(** C3.  [invokedWith] is the context and the world the service was
    started in, [ctx] and [world] those of the machine when the service
    settles.  A registry load answered without a record, and a gist load
    answered with status 404, bring the machine from [loading_content]
    to [source_error], send the error message to the notification actor
    and then ask for the [id] and [gist] parameters to be deleted from
    the query string, which leaves neither in it.  A load that fails in
    any other way brings the machine to [source_error] and sends the
    error to the notification actor, and that is all, the query string
    staying as it is: so it is when the registry query or a [fetch] is
    rejected by the network, when the body of the gist cannot be read or
    has no [machine.js] file, when the text of the file cannot be read,
    and when the provider is unknown.  No load other than the two first
    named rejects with a [NotFoundError]. *)
Theorem failed_load_enters_source_error
  (params : Params) (world world0 : World) (gw : Gateway)
  (invokedWith ctx : Context) :
  let step :=
    transition params world
      {| value := with_source loading_content; context := ctx |}
      (settled (loadSourceContent world0 gw invokedWith)) in
  let notFound (message : string) :=
    step = ({| value := with_source source_error; context := ctx |},
            [Send (BROADCAST message error) (notifRef ctx);
             UpdateQueryParamsWithoutReload deleteIdAndGist])
    /\ (forall queries : Queries,
          qget "id" (applyQueryUpdates (snd step) queries) = Null
          /\ qget "gist" (applyQueryUpdates (snd step) queries) = Null) in
  let generic (name message : string) :=
    step = ({| value := with_source source_error; context := ctx |},
            [Send (BROADCAST (errToString (OtherError name message)) error)
               (notifRef ctx)])
    /\ (forall queries : Queries,
          applyQueryUpdates (snd step) queries = queries) in
  let gistUrl :=
    "https://api.github.com/gists/" ++ toStr (sourceID invokedWith) in
  (forall result : QueryResult,
     sourceProvider invokedWith = Some registry ->
     gQuery_GetSourceFile gw (sourceID invokedWith) (accessToken world0)
     = Fulfilled result ->
     BooleanObj (fetchedSourceFile result) = false ->
     notFound "Source not found in Registry")
  /\ (forall response : Response,
        sourceProvider invokedWith = Some gist ->
        fetch gw gistUrl = Fulfilled response ->
        status response = 404%Z ->
        notFound "Gist not found")
  /\ (forall name message : string,
        loadSourceContent world0 gw invokedWith
        = Throw (OtherError name message) ->
        generic name message)
  /\ (forall e : TransportError,
        sourceProvider invokedWith = Some registry ->
        gQuery_GetSourceFile gw (sourceID invokedWith) (accessToken world0)
        = Rejected e ->
        generic (err_name e) (err_message e))
  /\ (forall e : TransportError,
        sourceProvider invokedWith = Some gist ->
        fetch gw gistUrl = Rejected e ->
        generic (err_name e) (err_message e))
  /\ (forall (response : Response) (e : TransportError),
        sourceProvider invokedWith = Some gist ->
        fetch gw gistUrl = Fulfilled response ->
        status response <> 404%Z ->
        json response = Rejected e ->
        generic (err_name e) (err_message e))
  /\ (forall (response : Response) (body : GistJson) (name message : string),
        sourceProvider invokedWith = Some gist ->
        fetch gw gistUrl = Fulfilled response ->
        status response <> 404%Z ->
        json response = Fulfilled body ->
        machineJsRawUrl world0 body = Throw (OtherError name message) ->
        generic name message)
  /\ (forall (response : Response) (body : GistJson) (url : string)
             (e : TransportError),
        sourceProvider invokedWith = Some gist ->
        fetch gw gistUrl = Fulfilled response ->
        status response <> 404%Z ->
        json response = Fulfilled body ->
        machineJsRawUrl world0 body = Ok url ->
        fetch gw url = Rejected e
        \/ (exists gistResponse : Response,
              fetch gw url = Fulfilled gistResponse
              /\ text gistResponse = Rejected e) ->
        generic (err_name e) (err_message e))
  /\ (sourceProvider invokedWith = None ->
      generic "Error" "It should be impossible to reach this.")
  /\ (forall message : string,
        loadSourceContent world0 gw invokedWith
        = Throw (NotFoundError message) ->
        (sourceProvider invokedWith = Some registry
         /\ message = "Source not found in Registry"
         /\ exists result : QueryResult,
              gQuery_GetSourceFile gw (sourceID invokedWith)
                (accessToken world0)
              = Fulfilled result
              /\ BooleanObj (fetchedSourceFile result) = false)
        \/ (sourceProvider invokedWith = Some gist
            /\ message = "Gist not found"
            /\ exists response : Response,
                 fetch gw gistUrl = Fulfilled response
                 /\ status response = 404%Z)).
Proof.
  cbv zeta.
  assert (HnotFound : forall message,
             loadSourceContent world0 gw invokedWith
             = Throw (NotFoundError message) ->
             transition params world
               {| value := with_source loading_content; context := ctx |}
               (settled (loadSourceContent world0 gw invokedWith))
             = ({| value := with_source source_error; context := ctx |},
                [Send (BROADCAST message error) (notifRef ctx);
                 UpdateQueryParamsWithoutReload deleteIdAndGist])
             /\ (forall queries : Queries,
                   qget "id"
                     (applyQueryUpdates
                        (snd (transition params world
                                {| value := with_source loading_content;
                                   context := ctx |}
                                (settled
                                   (loadSourceContent world0 gw invokedWith))))
                        queries) = Null
                   /\ qget "gist"
                        (applyQueryUpdates
                           (snd (transition params world
                                   {| value := with_source loading_content;
                                      context := ctx |}
                                   (settled
                                      (loadSourceContent world0 gw
                                         invokedWith))))
                           queries) = Null)).
  { intros message Hload. rewrite Hload. cbn [settled].
    rewrite failed_load_step. cbn. split; [reflexivity |].
    intro queries. apply deleteIdAndGist_clears. }
  assert (Hgeneric : forall name message,
             loadSourceContent world0 gw invokedWith
             = Throw (OtherError name message) ->
             transition params world
               {| value := with_source loading_content; context := ctx |}
               (settled (loadSourceContent world0 gw invokedWith))
             = ({| value := with_source source_error; context := ctx |},
                [Send (BROADCAST (errToString (OtherError name message))
                         error) (notifRef ctx)])
             /\ (forall queries : Queries,
                   applyQueryUpdates
                     (snd (transition params world
                             {| value := with_source loading_content;
                                context := ctx |}
                             (settled
                                (loadSourceContent world0 gw invokedWith))))
                     queries = queries)).
  { intros name message Hload. rewrite Hload. cbn [settled].
    rewrite failed_load_step. cbn. split; reflexivity. }
  refine (conj _ (conj _ (conj Hgeneric (conj _ (conj _ (conj _ (conj _
            (conj _ (conj _ _))))))))).
  - intros result Hprovider Hquery Hnone. apply HnotFound.
    unfold loadSourceContent. rewrite Hprovider, Hquery. cbn.
    unfold fetchedSourceFile in Hnone.
    destruct (result_data result) as [| |d]; try reflexivity.
    now rewrite Hnone.
  - intros response Hprovider Hfetch Hstatus. apply HnotFound.
    unfold loadSourceContent. rewrite Hprovider, Hfetch. cbn.
    now rewrite Hstatus.
  - intros e Hprovider Hquery. apply Hgeneric.
    unfold loadSourceContent. now rewrite Hprovider, Hquery.
  - intros e Hprovider Hfetch. apply Hgeneric.
    unfold loadSourceContent. now rewrite Hprovider, Hfetch.
  - intros response e Hprovider Hfetch Hstatus Hjson. apply Hgeneric.
    unfold loadSourceContent. rewrite Hprovider, Hfetch. cbn.
    apply Z.eqb_neq in Hstatus. now rewrite Hstatus, Hjson.
  - intros response body name message Hprovider Hfetch Hstatus Hjson Hurl.
    apply Hgeneric.
    unfold loadSourceContent. rewrite Hprovider, Hfetch. cbn.
    apply Z.eqb_neq in Hstatus. rewrite Hstatus, Hjson. cbn.
    now rewrite Hurl.
  - intros response body url e Hprovider Hfetch Hstatus Hjson Hurl Hraw.
    apply Hgeneric.
    unfold loadSourceContent. rewrite Hprovider, Hfetch. cbn.
    apply Z.eqb_neq in Hstatus. rewrite Hstatus, Hjson. cbn.
    rewrite Hurl. cbn.
    destruct Hraw as [Hraw | [gistResponse [Hraw Htext]]]; rewrite Hraw; cbn;
      [reflexivity | now rewrite Htext].
  - intro Hprovider. apply Hgeneric.
    unfold loadSourceContent. now rewrite Hprovider.
  - apply not_found_only_when_absent.
Qed.

Lemma failed_load_enters_source_error_witness :
  (transition standalone loggedOut
     {| value := with_source loading_content; context := fooContext |}
     (settled (loadSourceContent loggedOut nothingFound fooContext))
   = ({| value := with_source source_error; context := fooContext |},
      [Send (BROADCAST "Source not found in Registry" error)
         (notifRef fooContext);
       UpdateQueryParamsWithoutReload deleteIdAndGist]))
  /\ (transition standalone loggedOut
        {| value := with_source loading_content; context := fooContext |}
        (settled
           (loadSourceContent loggedOut nothingFound
              (set_sourceProvider (Some gist) fooContext)))
      = ({| value := with_source source_error; context := fooContext |},
         [Send (BROADCAST "Gist not found" error) (notifRef fooContext);
          UpdateQueryParamsWithoutReload deleteIdAndGist]))
  /\ (transition standalone loggedOut
        {| value := with_source loading_content; context := fooContext |}
        (settled (loadSourceContent loggedOut offline fooContext))
      = ({| value := with_source source_error; context := fooContext |},
         [Send (BROADCAST "TypeError: Failed to fetch" error)
            (notifRef fooContext)]))
  /\ (transition standalone loggedOut
        {| value := with_source loading_content; context := fooContext |}
        (settled
           (loadSourceContent loggedOut offline
              (set_sourceProvider (Some gist) fooContext)))
      = ({| value := with_source source_error; context := fooContext |},
         [Send (BROADCAST "TypeError: Failed to fetch" error)
            (notifRef fooContext)])).
Proof.
  pose proof (failed_load_enters_source_error standalone loggedOut loggedOut
                nothingFound fooContext fooContext)
    as [Hregistry _].
  pose proof (failed_load_enters_source_error standalone loggedOut loggedOut
                nothingFound (set_sourceProvider (Some gist) fooContext)
                fooContext)
    as [_ [Hgist _]].
  pose proof (failed_load_enters_source_error standalone loggedOut loggedOut
                offline fooContext fooContext)
    as [_ [_ [_ [Hquery _]]]].
  pose proof (failed_load_enters_source_error standalone loggedOut loggedOut
                offline (set_sourceProvider (Some gist) fooContext)
                fooContext)
    as [_ [_ [_ [_ [Hfetch _]]]]].
  cbv zeta in *.
  split; [| split; [| split]].
  - apply (Hregistry {| result_data := Val {| getSourceFile := Null |} |});
      reflexivity.
  - apply (Hgist
             {| status := 404;
                json := Rejected {| err_name := "SyntaxError";
                                    err_message := "Unexpected token" |};
                text := Fulfilled "Not Found" |});
      reflexivity.
  - apply (Hquery {| err_name := "TypeError";
                     err_message := "Failed to fetch" |});
      reflexivity.
  - apply (Hfetch {| err_name := "TypeError";
                     err_message := "Failed to fetch" |});
      reflexivity.
Defined.

(** ** The keyboard listeners of the drag machine *)

(** C8, as stated, fails: the key-up listener does not look at the
    target.  A Space released in a text field sends [RELEASE], and the
    machine leaves [locked]. *)
Lemma keyboard_listeners_ignore_text_input_counterexample :
  ~ (forall (Element : Type) (isTextInputLikeElement : Element -> bool)
            (e : Drag.KeyboardEvent Element)
            (s : Drag.Locked) (ctx : Drag.Context),
       isTextInputLikeElement (Drag.target e) = true ->
       Drag.code e = "Space" ->
       Drag.keyupListener e = []
       /\ Drag.value
            (Drag.keyup {| Drag.value := Drag.locked s; Drag.context := ctx |}
               e)
          = Drag.locked s).
Proof.
  intro claim.
  destruct (claim string isTextField spaceInTextField Drag.idle
              Drag.initialContext eq_refl eq_refl) as [Hsent _].
  discriminate Hsent.
Qed.

(** C8, amended.  The key-down listener ignores every event whose target
    is a text-input-like element: it sends nothing, and a machine in
    [released] stays in [released].  The key-up listener does not
    inspect the target: every Space key-up, on whatever element, sends
    [RELEASE], and a machine in [locked] returns to [released]. *)
Theorem keydown_listener_ignores_text_input
  (Element : Type) (isTextInputLikeElement : Element -> bool)
  (e : Drag.KeyboardEvent Element) (ctx : Drag.Context)
  (onTextInput : isTextInputLikeElement (Drag.target e) = true) :
  (Drag.keydownListener isTextInputLikeElement e = []
   /\ Drag.keydown isTextInputLikeElement
        {| Drag.value := Drag.released; Drag.context := ctx |} e
      = {| Drag.value := Drag.released; Drag.context := ctx |})
  /\ (forall (target : Element) (s : Drag.Locked),
        let up := {| Drag.code := "Space"; Drag.target := target |} in
        Drag.keyupListener up = [Drag.preventDefault; Drag.sendBack Drag.RELEASE]
        /\ Drag.keyup {| Drag.value := Drag.locked s; Drag.context := ctx |} up
           = {| Drag.value := Drag.released; Drag.context := ctx |}).
Proof.
  split.
  - unfold Drag.keydown, Drag.keydownListener. cbn.
    rewrite onTextInput. split; reflexivity.
  - intros target s. split; [reflexivity |]. destruct s; reflexivity.
Qed.

Lemma keydown_listener_ignores_text_input_witness :
  isTextField (Drag.target spaceInTextField) = true
  /\ Drag.keydownListener isTextField spaceInTextField = []
  /\ Drag.keyup
       {| Drag.value := Drag.locked Drag.idle;
          Drag.context := Drag.initialContext |} spaceInTextField
     = {| Drag.value := Drag.released; Drag.context := Drag.initialContext |}.
Proof.
  pose proof (keydown_listener_ignores_text_input string isTextField
                spaceInTextField Drag.initialContext eq_refl)
    as [[Hdown _] Hup].
  split; [reflexivity |]. split; [exact Hdown |].
  apply (Hup "INPUT" Drag.idle).
Defined.

(** ** Forwarding edits *)

(** C9.  [getInvocations] returns the list of [codeCacheMachine] and
    [confirmBeforeLeavingMachine] when not embedded and no list (it
    returns nothing) when embedded, so that [source_loaded] and
    [no_source] invoke the two machines exactly when not embedded.  A
    [CODE_UPDATED] processed in [source_loaded] or [no_source] is
    forwarded to the two machines, in that order, when not embedded, and
    has no effect when embedded; a machine built embedded forwards no
    event at all, in any state. *)
Theorem edits_forwarded_unless_embedded :
  (getInvocations false
   = Some [ {| src := cacheCodeChangesMachine; id := "codeCacheMachine" |};
            {| src := confirmBeforeLeavingMachine;
               id := "confirmBeforeLeavingMachine" |} ]
   /\ getInvocations true = None)
  /\ (forall (params : Params) (world : World) (ctx : Context)
             (code : string) (sourceID : Nullable string) (v : StateValue),
        (exists s, v = with_source (source_loaded s))
        \/ (exists s, v = no_source s) ->
        snd (transition params world {| value := v; context := ctx |}
               (CODE_UPDATED code sourceID))
        = (if isEmbedded params then []
           else [ForwardTo "codeCacheMachine" (CODE_UPDATED code sourceID);
                 ForwardTo "confirmBeforeLeavingMachine"
                   (CODE_UPDATED code sourceID)])
        /\ invoked params v
           = (if isEmbedded params then []
              else ["codeCacheMachine"; "confirmBeforeLeavingMachine"]))
  /\ (forall (served : Nullable SsrData) (world : World) (cfg : Config)
             (e : Event),
        existsb isForwardTo
          (snd (transition {| data := served; isEmbedded := true |} world
                  cfg e))
        = false).
Proof.
  split; [split; reflexivity |]. split.
  - intros params world ctx code sid v [[s Hv] | [s Hv]]; subst v;
      destruct s; unfold transition, invoked; cbn;
      unfold codeUpdatedActions; destruct (isEmbedded params); cbn;
      split; reflexivity.
  - intros served world [v ctx] e. unfold transition.
    destruct v as [|[|[|]|]|[|]|[|]|]; destruct e; cbn; try reflexivity;
      unfold isLoggedIn, enter_no_source, enter_source_loaded, andThen,
        hasLocalStorageCachedSource, getLocalStorageCachedSource, assign;
      cbn;
      repeat match goal with
        | |- context [if ?b then _ else _] => destruct b; cbn
        | |- context [match ?x with _ => _ end] => destruct x; cbn
        end;
      reflexivity.
Qed.

Lemma edits_forwarded_unless_embedded_witness :
  snd (transition standalone loggedOut
         {| value := no_source no_cached_source; context := initialContext |}
         (CODE_UPDATED "x" Null))
  = [ForwardTo "codeCacheMachine" (CODE_UPDATED "x" Null);
     ForwardTo "confirmBeforeLeavingMachine" (CODE_UPDATED "x" Null)]
  /\ snd (transition embedded loggedOut
            {| value := no_source no_cached_source;
               context := initialContext |}
            (CODE_UPDATED "x" Null))
     = [].
Proof.
  pose proof edits_forwarded_unless_embedded as [_ [Hedit _]].
  split.
  - apply (Hedit standalone loggedOut initialContext "x" Null
             (no_source no_cached_source)).
    right. exists no_cached_source. reflexivity.
  - apply (Hedit embedded loggedOut initialContext "x" Null
             (no_source no_cached_source)).
    right. exists no_cached_source. reflexivity.
Defined.

(** ** Editing *)

(** One edit or identity change: the machine stays where edits are
    accepted, and the content is the edit's code, or unchanged. *)
Lemma edit_or_identity_step
  (params : Params) (world : World) (cfg : Config) (e : Event) :
  acceptsEdits (value cfg) = true ->
  isEditOrIdentityChange e = true ->
  let cfg1 := fst (transition params world cfg e) in
  acceptsEdits (value cfg1) = true
  /\ sourceRawContent (context cfg1)
     = match e with
       | CODE_UPDATED code _ => Val code
       | _ => sourceRawContent (context cfg)
       end.
Proof.
  destruct cfg as [v ctx].
  destruct v as [|[|[|]|]|[|]|[|]|]; try discriminate; intros _;
    destruct e; try discriminate; intros _; unfold transition; cbn;
    unfold codeUpdatedActions, checking_if_user_owns_source;
    try (destruct (isEmbedded params); cbn; split; reflexivity);
    try (destruct (userOwnsSource _); split; reflexivity);
    split; reflexivity.
Qed.

Lemma identity_changes_keep_content
  (params : Params) (events : list (World * Event)) :
  forall cfg : Config,
    acceptsEdits (value cfg) = true ->
    forallb (fun we => isEditOrIdentityChange (snd we)) events = true ->
    lastCode events = None ->
    sourceRawContent (context (fst (run params cfg events)))
    = sourceRawContent (context cfg).
Proof.
  induction events as [|[world e] rest IH]; intros cfg Hstate Hall Hlast.
  - reflexivity.
  - cbn in Hall. apply andb_prop in Hall as [He Hrest].
    cbn in Hlast. destruct (lastCode rest) eqn:Hl; [discriminate |].
    destruct (edit_or_identity_step params world cfg e Hstate He)
      as [Hstate1 Hraw1].
    cbn [run].
    destruct (transition params world cfg e) as [cfg1 fx1]. cbn [fst] in *.
    specialize (IH cfg1 Hstate1 Hrest eq_refl).
    destruct (run params cfg1 rest) as [cfg2 fx2]. cbn [fst] in *.
    rewrite IH, Hraw1. destruct e; try reflexivity; discriminate.
Qed.

(** C1.  Started in [source_loaded] or [no_source], after any sequence of
    [CODE_UPDATED] events interleaved with identity changes, each of
    which sends [source_loaded] through [checking_if_user_owns_source]
    to one of its two resting children, [sourceRawContent] is the [code]
    of the last [CODE_UPDATED] delivered, and the machine is still in
    [source_loaded] or [no_source]. *)
Theorem content_is_last_edit
  (params : Params) (events : list (World * Event)) :
  forall (cfg : Config) (code : string),
    acceptsEdits (value cfg) = true ->
    forallb (fun we => isEditOrIdentityChange (snd we)) events = true ->
    lastCode events = Some code ->
    sourceRawContent (context (fst (run params cfg events))) = Val code
    /\ acceptsEdits (value (fst (run params cfg events))) = true.
Proof.
  induction events as [|[world e] rest IH]; intros cfg code Hstate Hall Hlast.
  - discriminate.
  - cbn in Hall. apply andb_prop in Hall as [He Hrest].
    destruct (edit_or_identity_step params world cfg e Hstate He)
      as [Hstate1 Hraw1].
    cbn in Hlast. cbn [run].
    destruct (transition params world cfg e) as [cfg1 fx1] eqn:Hstep.
    cbn [fst] in *.
    destruct (lastCode rest) as [code'|] eqn:Hl.
    + injection Hlast as <-.
      specialize (IH cfg1 code' Hstate1 Hrest eq_refl).
      destruct (run params cfg1 rest) as [cfg2 fx2]. exact IH.
    + pose proof (identity_changes_keep_content params rest cfg1
                    Hstate1 Hrest Hl) as Hkeep.
      assert (Hstays : acceptsEdits (value (fst (run params cfg1 rest)))
                       = true).
      { clear - Hstate1 Hrest. revert cfg1 Hstate1.
        induction rest as [|[w e'] rest IHr]; intros cfg1 Hstate1.
        - exact Hstate1.
        - cbn in Hrest. apply andb_prop in Hrest as [He' Hrest'].
          destruct (edit_or_identity_step params w cfg1 e' Hstate1 He')
            as [Hs _].
          cbn [run]. destruct (transition params w cfg1 e') as [c f].
          cbn [fst] in Hs. specialize (IHr Hrest' c Hs).
          destruct (run params c rest) as [c2 f2]. exact IHr. }
      destruct (run params cfg1 rest) as [cfg2 fx2]. cbn [fst] in *.
      split; [| exact Hstays].
      rewrite Hkeep, Hraw1.
      destruct e; try discriminate. now injection Hlast as <-.
Qed.

Lemma content_is_last_edit_witness :
  sourceRawContent
    (context
       (fst (run standalone
               {| value := with_source (source_loaded user_owns_this_source);
                  context := fooContext |}
               [(loggedOut, CODE_UPDATED "first" Null);
                (loggedOut, LOGGED_IN_USER_ID_UPDATED (Val "u1"));
                (loggedIn, CODE_UPDATED "second" (Val abc123));
                (loggedIn, LOGGED_IN_USER_ID_UPDATED Null)])))
  = Val "second".
Proof.
  apply (content_is_last_edit standalone
           [(loggedOut, CODE_UPDATED "first" Null);
            (loggedOut, LOGGED_IN_USER_ID_UPDATED (Val "u1"));
            (loggedIn, CODE_UPDATED "second" (Val abc123));
            (loggedIn, LOGGED_IN_USER_ID_UPDATED Null)]
           {| value := with_source (source_loaded user_owns_this_source);
              context := fooContext |} "second");
    reflexivity.
Defined.

(** * Further properties of the source machine *)

(** ** Loading *)

(** The ownership check in terms of the record and the user. *)
Lemma userOwnsSource_ownedBy (ctx : Context) :
  userOwnsSource ctx = ownedBy (sourceRegistryData ctx) (loggedInUserId ctx).
Proof.
  unfold userOwnsSource, ownedBy.
  destruct (sourceRegistryData ctx) as [| |r];
    [destruct (loggedInUserId ctx); reflexivity
    |destruct (loggedInUserId ctx); reflexivity |].
  destruct (sf_owner r) as [| |o];
    destruct (loggedInUserId ctx) as [| |u]; cbn; try reflexivity;
    try (destruct (u =? ""); reflexivity);
    try (destruct (owner_id o =? ""); reflexivity).
  destruct (owner_id o =? "") eqn:Ho; cbn; [reflexivity |].
  destruct (u =? "") eqn:Hu; cbn; [| reflexivity].
  apply String.eqb_eq in Hu. subst u. now rewrite Ho.
Qed.

(** X1.  A registry load that finds a record brings the machine from
    [loading_content] to [source_loaded] without any effect: the record
    becomes [sourceRegistryData], its id [sourceID], the content is the
    cached content for that id and modification date where the cache has
    some and the record's text otherwise, and the resting child is
    [user_owns_this_source] exactly when the record has a non-empty
    owner id equal to [loggedInUserId]. *)
Theorem registry_load_adopts_record
  (params : Params) (world world0 : World) (gw : Gateway)
  (invokedWith ctx : Context)
  (d : GetSourceFileQuery) (record : SourceFileFragment)
  (fromRegistry : sourceProvider invokedWith = Some registry)
  (answered : gQuery_GetSourceFile gw (sourceID invokedWith)
                (accessToken world0)
              = Fulfilled {| result_data := Val d |})
  (found : getSourceFile d = Val record) :
  let step :=
    transition params world
      {| value := with_source loading_content; context := ctx |}
      (settled (loadSourceContent world0 gw invokedWith)) in
  let cached :=
    getSourceRawContent world (Val (sf_id record)) (sf_updatedAt record) in
  snd step = []
  /\ value (fst step)
     = with_source
         (source_loaded
            (if ownedBy (Val record) (loggedInUserId ctx)
             then user_owns_this_source
             else user_does_not_own_this_source))
  /\ sourceID (context (fst step)) = Val (sf_id record)
  /\ sourceRegistryData (context (fst step)) = Val record
  /\ sourceRawContent (context (fst step))
     = (if Boolean cached then cached else Val (sf_text record))
  /\ sourceProvider (context (fst step)) = sourceProvider ctx
  /\ loggedInUserId (context (fst step)) = loggedInUserId ctx
  /\ desiredMachineName (context (fst step)) = desiredMachineName ctx.
Proof.
  cbv zeta. unfold loadSourceContent.
  rewrite fromRegistry, answered. cbn. rewrite found. cbn.
  unfold transition. cbn. rewrite found.
  unfold enter_source_loaded, andThen, getLocalStorageCachedSource, assign,
    checking_if_user_owns_source.
  cbn.
  destruct (Boolean (getSourceRawContent world (Val (sf_id record))
                       (sf_updatedAt record))) eqn:Hc;
    cbn; rewrite userOwnsSource_ownedBy; cbn;
    destruct (ownedBy (Val record) (loggedInUserId ctx)); cbn;
    repeat split; reflexivity.
Qed.

Lemma registry_load_adopts_record_witness :
  let step :=
    transition standalone loggedIn
      {| value := with_source loading_content;
         context := set_loggedInUserId (Val "u1") fooContext |}
      (settled (loadSourceContent loggedIn registryWithRecord fooContext)) in
  value (fst step) = with_source (source_loaded user_owns_this_source)
  /\ sourceID (context (fst step)) = Val "new1"
  /\ sourceRawContent (context (fst step)) = Val "stored".
Proof.
  pose proof (registry_load_adopts_record standalone loggedIn loggedIn
                registryWithRecord fooContext
                (set_loggedInUserId (Val "u1") fooContext)
                {| getSourceFile := Val (newRecord "stored") |}
                (newRecord "stored") eq_refl eq_refl eq_refl)
    as [_ [Hv [Hid [_ [Hraw _]]]]].
  cbv zeta. split; [exact Hv |]. split; [exact Hid | exact Hraw].
Defined.

(** X2.  A gist load whose gist has a [machine.js] file brings the
    machine to [user_does_not_own_this_source], whoever is logged in and
    whatever the status of the second response: the content is the
    cached content where the cache has some and the text of the file
    otherwise; nothing else changes and no effect runs. *)
Theorem gist_load_is_never_owned
  (params : Params) (world world0 : World) (gw : Gateway)
  (invokedWith ctx : Context)
  (response gistResponse : Response) (body : GistJson)
  (gistFiles : list (string * GistFile)) (file : GistFile)
  (rawSource : string)
  (fromGist : sourceProvider invokedWith = Some gist)
  (answered : fetch gw ("https://api.github.com/gists/"
                        ++ toStr (sourceID invokedWith))
              = Fulfilled response)
  (exists_ : status response <> 404%Z)
  (parsed : json response = Fulfilled body)
  (hasFiles : files body = Val gistFiles)
  (hasFile : lookupFile "machine.js" gistFiles = Some file)
  (fetched : fetch gw (raw_url file) = Fulfilled gistResponse)
  (read : text gistResponse = Fulfilled rawSource) :
  loadSourceContent world0 gw invokedWith = Ok (LOADED_FROM_GIST rawSource)
  /\ transition params world
       {| value := with_source loading_content; context := ctx |}
       (settled (loadSourceContent world0 gw invokedWith))
     = ({| value := with_source (source_loaded user_does_not_own_this_source);
           context :=
             set_sourceRawContent
               (overlaid world (set_sourceRawContent (Val rawSource) ctx))
               ctx |}, []).
Proof.
  assert (Hload : loadSourceContent world0 gw invokedWith
                  = Ok (LOADED_FROM_GIST rawSource)).
  { unfold loadSourceContent. rewrite fromGist, answered. cbn.
    apply Z.eqb_neq in exists_. rewrite exists_, parsed. cbn.
    unfold machineJsRawUrl. rewrite hasFiles, hasFile. cbn.
    rewrite fetched. cbn. rewrite read. reflexivity. }
  split; [exact Hload |].
  rewrite Hload. unfold transition, overlaid. cbn.
  unfold enter_source_loaded, andThen, getLocalStorageCachedSource, assign.
  cbn.
  destruct (Boolean (getSourceRawContent world (sourceID ctx) _)); cbn;
    reflexivity.
Qed.

Lemma gist_load_is_never_owned_witness :
  transition standalone loggedIn
    {| value := with_source loading_content; context := fooContext |}
    (settled
       (loadSourceContent loggedIn gistWithMachineJs
          (set_sourceProvider (Some gist) fooContext)))
  = ({| value := with_source (source_loaded user_does_not_own_this_source);
        context :=
          set_sourceRawContent (Val "createMachine({ id: 'gist' })")
            fooContext |}, []).
Proof.
  apply (gist_load_is_never_owned standalone loggedIn loggedIn
           gistWithMachineJs (set_sourceProvider (Some gist) fooContext)
           fooContext
           {| status := 200;
              json := Fulfilled
                        {| files :=
                             Val [("machine.js", {| raw_url := "raw" |})] |};
              text := Fulfilled "createMachine({ id: 'gist' })" |}
           {| status := 200;
              json := Fulfilled
                        {| files :=
                             Val [("machine.js", {| raw_url := "raw" |})] |};
              text := Fulfilled "createMachine({ id: 'gist' })" |}
           {| files := Val [("machine.js", {| raw_url := "raw" |})] |}
           [("machine.js", {| raw_url := "raw" |})]
           {| raw_url := "raw" |} "createMachine({ id: 'gist' })");
    try reflexivity.
  discriminate.
Defined.

(** X3.  A gist that exists but whose body has no [files], or whose
    [files] have no [machine.js], does not count as not found: reading
    the URL of the file throws, the load rejects with a [TypeError]
    that carries the engine's message for that read, the machine enters
    [source_error] and broadcasts that error, and the query string is
    left as it is. *)
Theorem gist_without_machine_js_is_not_cleaned_up
  (params : Params) (world world0 : World) (gw : Gateway)
  (invokedWith ctx : Context) (response : Response) (body : GistJson)
  (fromGist : sourceProvider invokedWith = Some gist)
  (answered : fetch gw ("https://api.github.com/gists/"
                        ++ toStr (sourceID invokedWith))
              = Fulfilled response)
  (exists_ : status response <> 404%Z)
  (parsed : json response = Fulfilled body)
  (noFile : forall gistFiles : list (string * GistFile),
              files body = Val gistFiles ->
              lookupFile "machine.js" gistFiles = None) :
  let step :=
    transition params world
      {| value := with_source loading_content; context := ctx |}
      (settled (loadSourceContent world0 gw invokedWith)) in
  let message :=
    match files body with
    | Val _ => typeErrorMessage world0 "undefined" "raw_url"
    | Null => typeErrorMessage world0 "null" "machine.js"
    | Undefined => typeErrorMessage world0 "undefined" "machine.js"
    end in
  loadSourceContent world0 gw invokedWith
  = Throw (OtherError "TypeError" message)
  /\ fst step = {| value := with_source source_error; context := ctx |}
  /\ snd step
     = [Send (BROADCAST (errToString (OtherError "TypeError" message)) error)
          (notifRef ctx)]
  /\ (forall queries : Queries,
        applyQueryUpdates (snd step) queries = queries).
Proof.
  cbv zeta.
  assert (Hload :
            loadSourceContent world0 gw invokedWith
            = Throw (OtherError "TypeError"
                       match files body with
                       | Val _ => typeErrorMessage world0 "undefined" "raw_url"
                       | Null => typeErrorMessage world0 "null" "machine.js"
                       | Undefined =>
                           typeErrorMessage world0 "undefined" "machine.js"
                       end)).
  { unfold loadSourceContent. rewrite fromGist, answered. cbn.
    apply Z.eqb_neq in exists_. rewrite exists_, parsed. cbn.
    unfold machineJsRawUrl.
    destruct (files body) as [| |gistFiles]; try reflexivity.
    now rewrite (noFile gistFiles eq_refl). }
  rewrite Hload. cbn [settled]. rewrite failed_load_step. cbn.
  repeat split.
Qed.

Lemma gist_without_machine_js_is_not_cleaned_up_witness :
  transition standalone loggedOut
    {| value := with_source loading_content; context := fooContext |}
    (settled
       (loadSourceContent loggedOut gistWithoutMachineJs
          (set_sourceProvider (Some gist) fooContext)))
  = ({| value := with_source source_error; context := fooContext |},
     [Send (BROADCAST
              (errToString
                 (OtherError "TypeError"
                    (typeErrorMessage loggedOut "undefined" "raw_url")))
              error) (notifRef fooContext)]).
Proof.
  pose proof (gist_without_machine_js_is_not_cleaned_up standalone loggedOut
                loggedOut gistWithoutMachineJs
                (set_sourceProvider (Some gist) fooContext) fooContext
                {| status := 200;
                   json := Fulfilled
                             {| files :=
                                  Val [("readme.md", {| raw_url := "u" |})] |};
                   text := Fulfilled "" |}
                {| files := Val [("readme.md", {| raw_url := "u" |})] |}
                eq_refl eq_refl) as Hgist.
  cbv zeta in Hgist.
  destruct Hgist as [_ [Hstate [Hfx _]]].
  - discriminate.
  - reflexivity.
  - intros gistFiles Hfiles. injection Hfiles as <-. reflexivity.
  - cbn [files] in Hfx.
    rewrite (surjective_pairing (transition _ _ _ _)).
    now rewrite Hstate, Hfx.
Defined.

(** Case analysis on what a transition tests. *)
Ltac split_cases :=
  repeat match goal with
    | |- context [if ?b then _ else _] => destruct b eqn:?; cbn
    | |- context [match ?x with _ => _ end] => destruct x eqn:?; cbn
    end.

Ltac unfold_machine :=
  unfold isLoggedIn, enter_no_source, enter_source_loaded, enter_with_source,
    enter_source_error, enter_creating, checking_if_user_owns_source,
    hasLocalStorageCachedSource, getLocalStorageCachedSource,
    codeUpdatedActions, choose, stay, andThen, rest, assign.

(** X4.  [loading_content] is the state of a machine just started and of
    no other: no transition enters it, and a machine that starts in it
    has a non-empty [sourceID] and a [sourceProvider], so that the load
    it starts does not take the branch of [loadSourceContent] for an
    unknown provider. *)
Theorem loading_content_only_at_start (params : Params) (world : World) :
  (forall (cfg : Config) (e : Event),
     value cfg <> with_source loading_content ->
     value (fst (transition params world cfg e))
     <> with_source loading_content)
  /\ (value (fst (start params world)) = with_source loading_content ->
      Boolean (sourceID (context (fst (start params world)))) = true
      /\ exists provider : SourceProvider,
           sourceProvider (context (fst (start params world)))
           = Some provider).
Proof.
  split.
  - intros [v ctx] e Hv. unfold transition.
    destruct v as [|[|[|]|]|[|]|[|]|]; try (exfalso; apply Hv; reflexivity);
      destruct e; cbn; try discriminate;
      unfold_machine; cbn; split_cases; discriminate.
  - unfold start, andThen, checking_if_on_legacy_url, checking_initial_data,
      checking_url, enter_no_source, enter_with_source, parseQueries,
      getLocalStorageCachedSource, hasLocalStorageCachedSource,
      machineContext, orNull, assign, rest.
    cbn. split_cases; intro H; try discriminate H;
      try (exfalso; cbn in *; congruence);
      (split; [first [reflexivity | assumption] | eexists; reflexivity]).
Qed.

Lemma loading_content_only_at_start_witness :
  Boolean
    (sourceID
       (context
          (fst (start {| data := Val {| ssr_id := abc123; ssr_text := "" |};
                         isEmbedded := false |} loggedOut)))) = true.
Proof.
  apply (loading_content_only_at_start
           {| data := Val {| ssr_id := abc123; ssr_text := "" |};
              isEmbedded := false |} loggedOut).
  reflexivity.
Defined.

(** ** The clean-up of the query string *)

Lemma qdelete_filter (name : string) (queries : Queries) :
  qdelete name queries
  = filter (fun kv => negb (fst kv =? name)) queries.
Proof.
  induction queries as [|[k v] rest IH]; cbn; [reflexivity |].
  destruct (k =? name); cbn; now rewrite IH.
Qed.

Lemma qget_filter (name : string) (keep : string -> bool)
  (queries : Queries) :
  keep name = true ->
  qget name (filter (fun kv => keep (fst kv)) queries) = qget name queries.
Proof.
  intro Hkeep.
  induction queries as [|[k v] rest IH]; cbn; [reflexivity |].
  destruct (k =? name) eqn:Hk.
  - apply String.eqb_eq in Hk. subst k. rewrite Hkeep. cbn.
    now rewrite String.eqb_refl.
  - destruct (keep k); cbn; [now rewrite Hk |]; exact IH.
Qed.

(** X5.  The clean-up that follows a load that found nothing keeps
    every parameter other than [id] and [gist], with its values and in
    its place: it is the filter that drops the pairs named [id] or
    [gist]; reading any other parameter gives what it gave before; and
    cleaning up twice is cleaning up once. *)
Theorem deleteIdAndGist_keeps_the_rest (queries : Queries) :
  deleteIdAndGist queries
  = filter (fun kv => negb (fst kv =? "id") && negb (fst kv =? "gist"))
      queries
  /\ (forall name : string,
        name <> "id" -> name <> "gist" ->
        qget name (deleteIdAndGist queries) = qget name queries)
  /\ deleteIdAndGist (deleteIdAndGist queries) = deleteIdAndGist queries.
Proof.
  assert (Hfilter : forall q,
             deleteIdAndGist q
             = filter (fun kv => negb (fst kv =? "id")
                                 && negb (fst kv =? "gist")) q).
  { intro q. unfold deleteIdAndGist. rewrite !qdelete_filter.
    induction q as [|[k v] rest IH]; cbn; [reflexivity |].
    destruct (k =? "id"); cbn; [exact IH |].
    destruct (k =? "gist"); cbn; now rewrite IH. }
  split; [apply Hfilter | split].
  - intros name Hid Hgist. rewrite Hfilter.
    apply (qget_filter name
             (fun k => negb (k =? "id") && negb (k =? "gist"))).
    apply String.eqb_neq in Hid, Hgist. now rewrite Hid, Hgist.
  - rewrite !Hfilter.
    induction queries as [|[k v] rest IH]; cbn; [reflexivity |].
    destruct (negb (k =? "id") && negb (k =? "gist")) eqn:Hk; cbn;
      [now rewrite Hk, IH | exact IH].
Qed.

Lemma deleteIdAndGist_keeps_the_rest_witness :
  qget "panels" (deleteIdAndGist [("id", abc123); ("panels", "false")])
  = Val "false".
Proof.
  pose proof (deleteIdAndGist_keeps_the_rest
                [("id", abc123); ("panels", "false")]) as [_ [Hkeep _]].
  rewrite (Hkeep "panels"); [reflexivity | discriminate | discriminate].
Defined.

(** ** Ownership *)

(** X6.  In [source_loaded] a change of the logged-in identity only sets
    [loggedInUserId] and re-runs the ownership check: no effect runs and
    the rest of the context, the content included, is left alone (the
    cache is not read again).  The machine then rests in
    [user_owns_this_source] exactly when the record at hand has a
    non-empty owner id equal to the new identity; so a logout (a null,
    undefined or empty identity) always ends in
    [user_does_not_own_this_source], and so does any identity when no
    registry record is at hand. *)
Theorem ownership_follows_identity
  (params : Params) (world : World) (ctx : Context) (s : SourceLoaded)
  (user : Nullable string) :
  transition params world
    {| value := with_source (source_loaded s); context := ctx |}
    (LOGGED_IN_USER_ID_UPDATED user)
  = ({| value :=
          with_source
            (source_loaded
               (if ownedBy (sourceRegistryData ctx) user
                then user_owns_this_source
                else user_does_not_own_this_source));
        context := set_loggedInUserId user ctx |}, [])
  /\ (Boolean user = false ->
      ownedBy (sourceRegistryData ctx) user = false)
  /\ (BooleanObj (sourceRegistryData ctx) = false ->
      ownedBy (sourceRegistryData ctx) user = false).
Proof.
  split; [| split].
  - unfold transition. destruct s; cbn; unfold andThen; cbn;
      unfold checking_if_user_owns_source;
      rewrite userOwnsSource_ownedBy; cbn;
      destruct (ownedBy (sourceRegistryData ctx) user); reflexivity.
  - unfold ownedBy. intro Hout.
    destruct (sourceRegistryData ctx) as [| |r]; try reflexivity.
    destruct user as [| |u]; try reflexivity.
    destruct (sf_owner r) as [| |o]; try reflexivity.
    cbn in Hout. apply negb_false_iff, String.eqb_eq in Hout. subst u.
    destruct (owner_id o =? ""); reflexivity.
  - unfold ownedBy. destruct (sourceRegistryData ctx); [reflexivity .. |].
    discriminate.
Qed.

Lemma ownership_follows_identity_witness :
  let owned :=
    set_sourceRegistryData (Val (newRecord "stored")) fooContext in
  value
    (fst (transition standalone loggedOut
            {| value := with_source (source_loaded user_owns_this_source);
               context := owned |}
            (LOGGED_IN_USER_ID_UPDATED Null)))
  = with_source (source_loaded user_does_not_own_this_source)
  /\ value
       (fst (transition standalone loggedIn
               {| value :=
                    with_source (source_loaded user_does_not_own_this_source);
                  context := owned |}
               (LOGGED_IN_USER_ID_UPDATED (Val "u1"))))
     = with_source (source_loaded user_owns_this_source).
Proof.
  cbv zeta. split.
  - pose proof (ownership_follows_identity standalone loggedOut
                  (set_sourceRegistryData (Val (newRecord "stored"))
                     fooContext)
                  user_owns_this_source Null) as [Hstep [Hout _]].
    rewrite Hstep. cbn [fst value]. now rewrite (Hout eq_refl).
  - pose proof (ownership_follows_identity standalone loggedIn
                  (set_sourceRegistryData (Val (newRecord "stored"))
                     fooContext)
                  user_does_not_own_this_source (Val "u1")) as [Hstep _].
    rewrite Hstep. reflexivity.
Defined.

(** ** Forking and cancelling *)

(** What [addForkOfToDesiredName] makes of a name. *)
Lemma addForkOfToDesiredName_name (ctx : Context) (e : Event) :
  addForkOfToDesiredName ctx e
  = (set_desiredMachineName
       (desiredMachineName (fst (addForkOfToDesiredName ctx e))) ctx, [])
  /\ desiredMachineName
       (fst (addForkOfToDesiredName
               (fst (addForkOfToDesiredName ctx e)) e))
     = desiredMachineName (fst (addForkOfToDesiredName ctx e)).
Proof.
  assert (Happ : forall s, s ++ " (forked)" = (s ++ " ") ++ "(forked)").
  { intro s. induction s as [|c s IH]; simpl; [reflexivity | now rewrite IH]. }
  unfold addForkOfToDesiredName, assign.
  destruct ctx as [sid provider raw reg nref uid [| |n]]; cbn;
    try (split; reflexivity).
  destruct (n =? "") eqn:Hempty; cbn; [rewrite Hempty; split; reflexivity |].
  destruct (endsWith n "(forked)") eqn:Hends; cbn;
    [rewrite Hempty, Hends; split; reflexivity |].
  rewrite Happ, endsWith_append, orb_true_r. split; reflexivity.
Qed.

Lemma addForkOfToDesiredName_congr (c1 c2 : Context) (e : Event) :
  desiredMachineName c1 = desiredMachineName c2 ->
  desiredMachineName (fst (addForkOfToDesiredName c1 e))
  = desiredMachineName (fst (addForkOfToDesiredName c2 e)).
Proof.
  intro H. unfold addForkOfToDesiredName, assign. cbn [fst]. rewrite H.
  destruct (negb (Boolean (desiredMachineName c2)) || _); cbn;
    [exact H | reflexivity].
Qed.

Lemma fork_step
  (params : Params) (world : World) (ctx : Context) (s : WithSource) :
  isLoggedIn world = true ->
  transition params world {| value := with_source s; context := ctx |} FORK
  = ({| value := creating showingNameModal;
        context := fst (addForkOfToDesiredName ctx FORK) |}, []).
Proof.
  intro Hin. unfold isLoggedIn in Hin. unfold transition.
  destruct s as [|[|]|]; cbn; unfold isLoggedIn; rewrite Hin;
    unfold andThen; cbn;
    destruct (negb (Boolean (desiredMachineName ctx)) || _); reflexivity.
Qed.

Lemma cancel_step (params : Params) (world : World) (ctx : Context) :
  Boolean (sourceID ctx) = true ->
  exists s' : SourceLoaded,
    transition params world
      {| value := creating showingNameModal; context := ctx |}
      CLOSE_NAME_CHOOSER_MODAL
    = ({| value := with_source (source_loaded s');
          context := set_sourceRawContent (overlaid world ctx) ctx |}, []).
Proof.
  intro Hid. unfold transition, overlaid. cbn. rewrite Hid.
  unfold enter_source_loaded, andThen, getLocalStorageCachedSource, assign.
  cbn.
  destruct (Boolean (getSourceRawContent world (sourceID ctx) _)); cbn;
    eexists; try reflexivity.
  destruct ctx; reflexivity.
Qed.

Lemma fork_then_cancel
  (params : Params) (world : World) (ctx : Context) (s : SourceLoaded) :
  isLoggedIn world = true ->
  Boolean (sourceID ctx) = true ->
  exists (s' : SourceLoaded) (ctx' : Context),
    run params {| value := with_source (source_loaded s); context := ctx |}
      [(world, FORK); (world, CLOSE_NAME_CHOOSER_MODAL)]
    = ({| value := with_source (source_loaded s'); context := ctx' |}, [])
    /\ desiredMachineName ctx'
       = desiredMachineName (fst (addForkOfToDesiredName ctx FORK))
    /\ sourceID ctx' = sourceID ctx.
Proof.
  intros Hin Hid.
  destruct (addForkOfToDesiredName_name ctx FORK) as [Hname _].
  assert (Hsid : sourceID (fst (addForkOfToDesiredName ctx FORK))
                 = sourceID ctx) by now rewrite Hname.
  assert (Hid' : Boolean (sourceID (fst (addForkOfToDesiredName ctx FORK)))
                 = true) by now rewrite Hsid.
  destruct (cancel_step params world _ Hid') as [s' Hcancel].
  cbn [run]. rewrite (fork_step params world ctx (source_loaded s) Hin).
  rewrite Hcancel.
  exists s'. eexists. split; [reflexivity |]. split; [reflexivity |].
  exact Hsid.
Qed.

(** X7.  A logged-in user who, on a loaded source with a non-empty
    [sourceID], opens the fork dialogue and closes it again, any number
    of times, is back in [source_loaded] without any effect having run,
    with the same [sourceID], and with the name [addForkOfToDesiredName]
    gives once: the suffix is not stacked. *)
Theorem fork_and_cancel_do_not_stack
  (params : Params) (world : World) (n : nat) :
  forall (ctx : Context) (s : SourceLoaded),
    isLoggedIn world = true ->
    Boolean (sourceID ctx) = true ->
    let step :=
      run params {| value := with_source (source_loaded s); context := ctx |}
        (forkAndCancel world (S n)) in
    snd step = []
    /\ (exists s', value (fst step) = with_source (source_loaded s'))
    /\ sourceID (context (fst step)) = sourceID ctx
    /\ desiredMachineName (context (fst step))
       = desiredMachineName (fst (addForkOfToDesiredName ctx FORK)).
Proof.
  induction n as [|n IH]; intros ctx s Hin Hid.
  - destruct (fork_then_cancel params world ctx s Hin Hid)
      as [s' [ctx' [Hrun [Hname Hsid]]]].
    cbv zeta. change (forkAndCancel world 1)
      with [(world, FORK); (world, CLOSE_NAME_CHOOSER_MODAL)].
    rewrite Hrun. cbn. repeat split; eauto.
  - destruct (fork_then_cancel params world ctx s Hin Hid)
      as [s' [ctx' [Hrun [Hname Hsid]]]].
    assert (Hid' : Boolean (sourceID ctx') = true) by now rewrite Hsid.
    specialize (IH ctx' s' Hin Hid'). cbv zeta in IH.
    destruct IH as [Hfx [Hstate [Hsid2 Hname2]]].
    cbv zeta.
    change (forkAndCancel world (S (S n)))
      with ((world, FORK) :: (world, CLOSE_NAME_CHOOSER_MODAL)
            :: forkAndCancel world (S n)).
    cbn [run] in Hrun |- *.
    destruct (transition params world
                {| value := with_source (source_loaded s); context := ctx |}
                FORK) as [cfg1 fx1].
    destruct (transition params world cfg1 CLOSE_NAME_CHOOSER_MODAL)
      as [cfg2 fx2].
    injection Hrun as Hcfg Hfx12. subst cfg2.
    destruct (run params
                {| value := with_source (source_loaded s'); context := ctx' |}
                (forkAndCancel world (S n))) as [cfg3 fx3].
    cbn [fst snd] in *. subst fx3.
    rewrite !app_nil_r in Hfx12.
    split; [rewrite app_nil_r; exact Hfx12 |].
    split; [exact Hstate |].
    split; [congruence |].
    rewrite Hname2.
    destruct (addForkOfToDesiredName_name ctx FORK) as [Hform Hidem].
    destruct (addForkOfToDesiredName_name ctx' FORK) as [Hform' _].
    pose proof (addForkOfToDesiredName_congr ctx'
                  (fst (addForkOfToDesiredName ctx FORK)) FORK Hname)
      as Hsame.
    now rewrite Hsame, Hidem.
Qed.

Lemma fork_and_cancel_do_not_stack_witness :
  desiredMachineName
    (context
       (fst (run standalone
               {| value :=
                    with_source (source_loaded user_does_not_own_this_source);
                  context := fooContext |}
               (forkAndCancel loggedIn 3))))
  = Val "Foo (forked)".
Proof.
  apply (fork_and_cancel_do_not_stack standalone loggedIn 2 fooContext
           user_does_not_own_this_source); reflexivity.
Defined.

(** ** Saving *)

Lemma orEmpty_Val (s : string) : orEmpty (Val s) = s.
Proof.
  unfold orEmpty. cbn. destruct (s =? "") eqn:H; cbn; [| reflexivity].
  now apply String.eqb_eq in H.
Qed.

(** X8.  Saving a source that has no id yet: a logged-in user sends
    [SAVE] in [no_source] and chooses a name.  The machine then rests in
    [pendingSave], where [createSourceFile] asks the registry to create
    (not to fork) a file with the content, or the empty text where there
    is none, under the chosen name.  When the registry answers with a
    record, the cache entry of the unsaved source is removed, the URL
    becomes the path of the record's id, success is broadcast, and the
    machine rests in [user_owns_this_source] with the record's id as
    [sourceID], whatever owner the record names. *)
Theorem save_creates_new_file
  (params : Params) (world : World) (reg : Registry)
  (ctx : Context) (s : NoSource) (name : string)
  (record : SourceFileFragment)
  (authenticated : isLoggedIn world = true)
  (unsaved : Boolean (sourceID ctx) = false)
  (answered :
     gQuery_CreateSourceFile reg
       {| create_text := orEmpty (sourceRawContent ctx);
          create_name := name |}
       (accessToken world)
     = Fulfilled
         {| mutation_data := Val {| createSourceFile := Val record |} |}) :
  let pending :=
    run params {| value := no_source s; context := ctx |}
      [(world, SAVE); (world, CHOOSE_NAME name)] in
  let step :=
    transition params world (fst pending)
      (Services.created
         (Services.createSourceFile world reg (context (fst pending)))) in
  pending
  = ({| value := creating pendingSave;
        context := set_desiredMachineName (Val name) ctx |}, [])
  /\ snd step
     = [RemoveSourceRawContent (sourceID ctx);
        RouterReplace ("/" ++ sf_id record);
        Send (BROADCAST "New file saved successfully!" success)
          (notifRef ctx)]
  /\ value (fst step) = with_source (source_loaded user_owns_this_source)
  /\ sourceID (context (fst step)) = Val (sf_id record)
  /\ sourceProvider (context (fst step)) = Some registry
  /\ sourceRegistryData (context (fst step)) = Val record
  /\ desiredMachineName (context (fst step)) = Val name.
Proof.
  assert (Hpending :
            run params {| value := no_source s; context := ctx |}
              [(world, SAVE); (world, CHOOSE_NAME name)]
            = ({| value := creating pendingSave;
                  context := set_desiredMachineName (Val name) ctx |}, [])).
  { unfold isLoggedIn in authenticated. unfold run, transition.
    destruct s; cbn; unfold isLoggedIn; rewrite authenticated; reflexivity. }
  cbv zeta. rewrite Hpending. cbn [fst context].
  unfold Services.createSourceFile, Services.forksRegistrySource.
  cbn [sourceID set_desiredMachineName sourceRawContent desiredMachineName
       sourceProvider].
  rewrite unsaved. cbn [andb]. rewrite orEmpty_Val, answered. cbn.
  unfold transition, getLocalStorageCachedSource, assign. cbn.
  destruct (Boolean (getSourceRawContent world (Val (sf_id record))
                       (sf_updatedAt record)));
    cbn; repeat split.
Qed.

Lemma save_creates_new_file_witness :
  let pending :=
    run standalone
      {| value := no_source no_cached_source;
         context := set_sourceRawContent (Val "createMachine({})")
                      initialContext |}
      [(loggedIn, SAVE); (loggedIn, CHOOSE_NAME "Foo")] in
  let step :=
    transition standalone loggedIn (fst pending)
      (Services.created
         (Services.createSourceFile loggedIn accepting
            (context (fst pending)))) in
  value (fst step) = with_source (source_loaded user_owns_this_source)
  /\ sourceID (context (fst step)) = Val "new1".
Proof.
  pose proof (save_creates_new_file standalone loggedIn accepting
                (set_sourceRawContent (Val "createMachine({})")
                   initialContext)
                no_cached_source "Foo" (newRecord "createMachine({})")
                eq_refl eq_refl eq_refl)
    as [_ [_ [Hv [Hid _]]]].
  cbv zeta. split; [exact Hv | exact Hid].
Defined.

(** X9.  Saving a source one does not own: a logged-in user sends
    [SAVE] in [user_does_not_own_this_source] and chooses a name, which
    replaces the name suggested by [addForkOfToDesiredName].  For a
    registry source with a non-empty id, [createSourceFile] asks the
    registry to fork that id; for any other source with an id (a gist)
    it asks to create a new file.  When the registry answers with a
    record, the cache entry stored under the old id is removed, the URL
    becomes the path of the new id, success is broadcast, and the
    machine rests in [user_owns_this_source] on the new record. *)
Theorem save_forks_registry_source
  (params : Params) (world : World) (reg : Registry)
  (ctx : Context) (name : string) (record : SourceFileFragment)
  (authenticated : isLoggedIn world = true)
  (hasId : Boolean (sourceID ctx) = true)
  (answered :
     match sourceProvider ctx with
     | Some registry =>
         gQuery_ForkSourceFile reg
           {| fork_text := orEmpty (sourceRawContent ctx);
              fork_name := name;
              forkFromId := sourceID ctx |}
           (accessToken world)
         = Fulfilled
             {| mutation_data := Val {| forkSourceFile := Val record |} |}
     | _ =>
         gQuery_CreateSourceFile reg
           {| create_text := orEmpty (sourceRawContent ctx);
              create_name := name |}
           (accessToken world)
         = Fulfilled
             {| mutation_data := Val {| createSourceFile := Val record |} |}
     end) :
  let pending :=
    run params
      {| value := with_source (source_loaded user_does_not_own_this_source);
         context := ctx |}
      [(world, SAVE); (world, CHOOSE_NAME name)] in
  let step :=
    transition params world (fst pending)
      (Services.created
         (Services.createSourceFile world reg (context (fst pending)))) in
  pending
  = ({| value := creating pendingSave;
        context := set_desiredMachineName (Val name) ctx |}, [])
  /\ snd step
     = [RemoveSourceRawContent (sourceID ctx);
        RouterReplace ("/" ++ sf_id record);
        Send (BROADCAST "New file saved successfully!" success)
          (notifRef ctx)]
  /\ value (fst step) = with_source (source_loaded user_owns_this_source)
  /\ sourceID (context (fst step)) = Val (sf_id record)
  /\ sourceProvider (context (fst step)) = Some registry
  /\ sourceRegistryData (context (fst step)) = Val record
  /\ desiredMachineName (context (fst step)) = Val name.
Proof.
  assert (Hpending :
            run params
              {| value :=
                   with_source (source_loaded user_does_not_own_this_source);
                 context := ctx |}
              [(world, SAVE); (world, CHOOSE_NAME name)]
            = ({| value := creating pendingSave;
                  context := set_desiredMachineName (Val name) ctx |}, [])).
  { unfold isLoggedIn in authenticated. unfold run, transition.
    cbn. unfold isLoggedIn. rewrite authenticated. unfold andThen. cbn.
    destruct (negb (Boolean (desiredMachineName ctx)) || _); reflexivity. }
  cbv zeta. rewrite Hpending. cbn [fst context].
  unfold Services.createSourceFile, Services.forksRegistrySource.
  cbn [sourceID set_desiredMachineName sourceRawContent desiredMachineName
       sourceProvider].
  rewrite hasId, orEmpty_Val. cbn [andb].
  destruct (sourceProvider ctx) as [[|]|]; rewrite answered; cbn;
    unfold transition, getLocalStorageCachedSource, assign; cbn;
    destruct (Boolean (getSourceRawContent world (Val (sf_id record))
                         (sf_updatedAt record)));
    cbn; repeat split.
Qed.

Lemma save_forks_registry_source_witness :
  let pending :=
    run standalone
      {| value := with_source (source_loaded user_does_not_own_this_source);
         context := fooContext |}
      [(loggedIn, SAVE); (loggedIn, CHOOSE_NAME "Bar")] in
  let step :=
    transition standalone loggedIn (fst pending)
      (Services.created
         (Services.createSourceFile loggedIn accepting
            (context (fst pending)))) in
  snd step
  = [RemoveSourceRawContent (Val abc123);
     RouterReplace "/new1";
     Send (BROADCAST "New file saved successfully!" success)
       (Val (Spawned notifMachine))]
  /\ desiredMachineName (context (fst step)) = Val "Bar".
Proof.
  pose proof (save_forks_registry_source standalone loggedIn accepting
                fooContext "Bar" (newRecord "createMachine({})")
                eq_refl eq_refl eq_refl)
    as [_ [Hfx [_ [_ [_ [_ Hname]]]]]].
  cbv zeta. split; [exact Hfx | exact Hname].
Defined.

(** X10.  When [createSourceFile] fails in [pendingSave], the error
    itself is dropped: the only effect is the broadcast of the fixed
    message for a failed save; neither the URL nor the cache is touched
    and, the content apart, the context stays as it is.  A machine that
    has a non-empty [sourceID] returns to [source_loaded], with the
    ownership check run again, any other machine to [no_source]; on
    the way the cached content, where there is some, becomes the
    content. *)
Theorem failed_create_returns
  (params : Params) (world : World) (ctx : Context) (err : JsError) :
  let step :=
    transition params world
      {| value := creating pendingSave; context := ctx |}
      (error_createSourceFile err) in
  snd step
  = [Send (BROADCAST "An error occurred when saving." error) (notifRef ctx)]
  /\ context (fst step) = set_sourceRawContent (overlaid world ctx) ctx
  /\ value (fst step)
     = (if Boolean (sourceID ctx)
        then with_source
               (source_loaded
                  (if ownedBy (sourceRegistryData ctx) (loggedInUserId ctx)
                   then user_owns_this_source
                   else user_does_not_own_this_source))
        else no_source
               (if hasLocalStorageCachedSource world ctx
                then has_cached_source
                else no_cached_source)).
Proof.
  cbv zeta. unfold transition, overlaid. cbn.
  destruct (Boolean (sourceID ctx)); cbn;
    unfold andThen, enter_source_loaded, enter_no_source, andThen,
      hasLocalStorageCachedSource, getLocalStorageCachedSource, assign,
      checking_if_user_owns_source;
    cbn;
    destruct (Boolean (getSourceRawContent world (sourceID ctx) _)) eqn:Hc;
    cbn; rewrite ?Hc; cbn; rewrite ?userOwnsSource_ownedBy; cbn;
    try destruct (ownedBy (sourceRegistryData ctx) (loggedInUserId ctx));
    repeat split; destruct ctx; reflexivity.
Qed.

(** X11.  Saving a source one owns: a logged-in [SAVE] in
    [user_owns_this_source] moves to [updating] without changing
    anything, where [updateSourceFile] sends the id and the content as
    they are.  When the registry answers with the updated record, the
    record becomes [sourceRegistryData] and its id [sourceID], success
    is broadcast, and the machine is back in [user_owns_this_source];
    the URL is not touched.  When the update fails, the fixed error
    message is broadcast and the machine returns to [source_loaded]
    with the record and the id it had.  Started by any event other than
    [SAVE], the service resolves without asking the registry. *)
Theorem owner_save_updates
  (params : Params) (world : World) (reg : Registry) (ctx : Context)
  (d : UpdateSourceFileMutation)
  (authenticated : isLoggedIn world = true)
  (answered :
     gQuery_UpdateSourceFile reg
       {| update_id := sourceID ctx; update_text := sourceRawContent ctx |}
       (accessToken world)
     = Fulfilled {| mutation_data := Val d |}) :
  let saving :=
    transition params world
      {| value := with_source (source_loaded user_owns_this_source);
         context := ctx |} SAVE in
  saving = ({| value := updating; context := ctx |}, [])
  /\ Services.updated (Services.updateSourceFile world reg ctx SAVE)
     = Some (done_updateSourceFile d)
  /\ (let step := transition params world (fst saving)
                    (done_updateSourceFile d) in
      snd step
      = [Send (BROADCAST "Saved successfully" success) (notifRef ctx)]
      /\ value (fst step)
         = with_source (source_loaded user_owns_this_source)
      /\ sourceID (context (fst step)) = Val (sf_id (updateSourceFile d))
      /\ sourceRegistryData (context (fst step))
         = Val (updateSourceFile d)
      /\ sourceProvider (context (fst step)) = Some registry)
  /\ (forall err : JsError,
        let step := transition params world (fst saving)
                      (error_updateSourceFile err) in
        snd step
        = [Send (BROADCAST "An error occurred when saving." error)
             (notifRef ctx)]
        /\ (exists s, value (fst step) = with_source (source_loaded s))
        /\ sourceID (context (fst step)) = sourceID ctx
        /\ sourceRegistryData (context (fst step))
           = sourceRegistryData ctx)
  /\ (forall e : Event,
        e <> SAVE ->
        Services.updateSourceFile world reg ctx e = Ok Undefined).
Proof.
  assert (Hsaving :
            transition params world
              {| value := with_source (source_loaded user_owns_this_source);
                 context := ctx |} SAVE
            = ({| value := updating; context := ctx |}, [])).
  { unfold isLoggedIn in authenticated. unfold transition. cbn.
    unfold isLoggedIn. now rewrite authenticated. }
  cbv zeta. rewrite Hsaving. cbn [fst].
  split; [reflexivity |]. split.
  { unfold Services.updateSourceFile. rewrite answered. reflexivity. }
  split.
  { unfold transition, getLocalStorageCachedSource, assign. cbn.
    destruct (Boolean (getSourceRawContent world _ _)); cbn; repeat split. }
  split.
  { intro err. unfold transition. cbn.
    unfold andThen, enter_source_loaded, andThen,
      getLocalStorageCachedSource, assign.
    cbn.
    destruct (Boolean (getSourceRawContent world (sourceID ctx) _)); cbn;
      repeat split; eexists; reflexivity. }
  intros e He. destruct e; try reflexivity. now contradiction He.
Qed.

Lemma owner_save_updates_witness :
  let saving :=
    transition standalone loggedIn
      {| value := with_source (source_loaded user_owns_this_source);
         context := fooContext |} SAVE in
  saving = ({| value := updating; context := fooContext |}, [])
  /\ Services.updated
       (Services.updateSourceFile loggedIn accepting fooContext SAVE)
     = Some (done_updateSourceFile
               {| updateSourceFile := newRecord "createMachine({})" |})
  /\ Services.updateSourceFile loggedIn accepting fooContext
       (CODE_UPDATED "x" Null)
     = Ok Undefined.
Proof.
  pose proof (owner_save_updates standalone loggedIn accepting fooContext
                {| updateSourceFile := newRecord "createMachine({})" |}
                eq_refl eq_refl)
    as [Hsaving [Hsent [_ [_ Hother]]]].
  cbv zeta. split; [exact Hsaving |]. split; [exact Hsent |].
  apply Hother. discriminate.
Defined.

(** ** The editor *)

(** X12.  [getEditorValue] is never the empty text: it is the content
    where there is a non-empty one and the initial code otherwise, and
    [getShouldImmediateUpdate] tells the two cases apart.  So after an
    edit processed in [source_loaded] or [no_source], the editor value
    is the code of the edit, except that an edit to the empty text
    brings the initial code back. *)
Theorem editor_value_is_never_empty
  (params : Params) (world : World) (state : Config) :
  getEditorValue state <> ""
  /\ (getShouldImmediateUpdate state = true ->
      sourceRawContent (context state) = Val (getEditorValue state))
  /\ (getShouldImmediateUpdate state = false ->
      getEditorValue state = initialMachineCode)
  /\ (forall (code : string) (sourceID : Nullable string),
        acceptsEdits (value state) = true ->
        let edited :=
          fst (transition params world state (CODE_UPDATED code sourceID)) in
        getEditorValue edited
        = (if code =? "" then initialMachineCode else code)
        /\ getShouldImmediateUpdate edited = negb (code =? "")).
Proof.
  unfold getEditorValue, getShouldImmediateUpdate.
  split; [| split; [| split]].
  - destruct (sourceRawContent (context state)) as [| |s]; cbn;
      try discriminate.
    destruct (s =? "") eqn:Hs; cbn; [discriminate |].
    now apply String.eqb_neq.
  - intro H. rewrite H.
    destruct (sourceRawContent (context state)); try discriminate.
    reflexivity.
  - intro H. now rewrite H.
  - intros code sid Hstate.
    destruct (edit_or_identity_step params world state
                (CODE_UPDATED code sid) Hstate eq_refl) as [_ Hraw].
    cbv zeta in *. rewrite Hraw. cbn.
    destruct (code =? ""); split; reflexivity.
Qed.

Lemma editor_value_is_never_empty_witness :
  getEditorValue
    (fst (transition standalone loggedOut
            {| value := no_source no_cached_source; context := fooContext |}
            (CODE_UPDATED "" Null)))
  = initialMachineCode.
Proof.
  pose proof (editor_value_is_never_empty standalone loggedOut
                {| value := no_source no_cached_source;
                   context := fooContext |}) as [_ [_ [_ Hedit]]].
  apply (Hedit "" Null). reflexivity.
Defined.

(** ** Starting without a source *)

(** X13.  Started without server-supplied data, on a URL that carries
    neither a non-empty [gist] nor a non-empty [id] parameter (or
    outside a browser), and with nothing cached for the source without
    id, the machine runs no effect and rests in
    [no_source / no_cached_source] with the initial context but for the
    spawned [notifRef]: the welcome area is shown when the canvas is
    empty, and the editor shows the initial code. *)
Theorem starts_without_source
  (params : Params) (world : World)
  (noData : data params = Undefined \/ data params = Null)
  (noParameter :
     match window world with
     | Some queries =>
         Boolean (qget "gist" queries) = false
         /\ Boolean (qget "id" queries) = false
     | None => True
     end)
  (nothingCached :
     Boolean (getSourceRawContent world Null Undefined) = false) :
  start params world
  = ({| value := no_source no_cached_source;
        context := set_notifRef (Val (Spawned notifMachine)) initialContext |},
     [])
  /\ Canvas.showsWelcomeArea true (fst (start params world)) = true
  /\ getEditorValue (fst (start params world)) = initialMachineCode.
Proof.
  assert (Hstart :
            start params world
            = ({| value := no_source no_cached_source;
                  context := set_notifRef (Val (Spawned notifMachine))
                               initialContext |}, [])).
  { unfold start, andThen, checking_if_on_legacy_url, idOnQueryParams,
      checking_initial_data, checking_url, enter_no_source, enter_with_source,
      parseQueries, hasLocalStorageCachedSource, machineContext, orNull,
      assign, rest.
    destruct (window world) as [queries|].
    - destruct noParameter as [Hgist Hid].
      destruct noData as [Hd | Hd]; rewrite Hd; cbn;
        rewrite Hid; cbn; rewrite ?andb_false_r; cbn;
        destruct (negb (isOnClientSide world)); cbn;
        rewrite Hgist, ?Hid; cbn; rewrite ?Hgist, ?Hid; cbn;
        rewrite nothingCached; reflexivity.
    - destruct noData as [Hd | Hd]; rewrite Hd; cbn;
        destruct (negb (isOnClientSide world)); cbn;
        rewrite nothingCached; reflexivity. }
  rewrite Hstart. repeat split.
Qed.

Lemma starts_without_source_witness :
  start standalone loggedOut
  = ({| value := no_source no_cached_source;
        context := set_notifRef (Val (Spawned notifMachine)) initialContext |},
     []).
Proof.
  apply (starts_without_source standalone loggedOut).
  - left. reflexivity.
  - split; reflexivity.
  - reflexivity.
Defined.

(** X14.  [EXAMPLE_REQUESTED] is answered in [no_cached_source] and
    nowhere else.  There it replaces the content by the example machine,
    runs no effect and leaves the state, so the welcome tag, in place;
    in every other state the event changes nothing. *)
Theorem example_only_without_cached_source
  (params : Params) (world : World) (state : Config) :
  transition params world state EXAMPLE_REQUESTED
  = (match value state with
     | no_source no_cached_source =>
         {| value := no_source no_cached_source;
            context :=
              set_sourceRawContent (Val exampleMachineCode) (context state) |}
     | _ => state
     end, [])
  /\ hasTag "canShowWelcomeMessage"
       (value (fst (transition params world state EXAMPLE_REQUESTED)))
     = hasTag "canShowWelcomeMessage" (value state)
  /\ (hasTag "canShowWelcomeMessage" (value state) = true ->
      getEditorValue (fst (transition params world state EXAMPLE_REQUESTED))
      = exampleMachineCode).
Proof.
  destruct state as [v ctx].
  destruct v as [|[|[|]|]|[|]|[|]|]; unfold transition; cbn;
    repeat split; try discriminate.
Qed.

Lemma example_only_without_cached_source_witness :
  getEditorValue
    (fst (transition standalone loggedOut (fst (start standalone loggedOut))
            EXAMPLE_REQUESTED))
  = exampleMachineCode.
Proof.
  apply (example_only_without_cached_source standalone loggedOut
           (fst (start standalone loggedOut))).
  reflexivity.
Defined.

(** ** Effects *)

(** Every broadcast of a transition is addressed to the [notifRef] of
    the context it starts from. *)
Lemma sends_go_to_notifRef
  (params : Params) (world : World) (cfg : Config) (e : Event)
  (event : NotifEvent) (to : Nullable ActorRef) :
  In (Send event to) (snd (transition params world cfg e)) ->
  to = notifRef (context cfg).
Proof.
  destruct cfg as [v ctx]. unfold transition.
  destruct v as [|[|[|]|]|[|]|[|]|]; destruct e; cbn;
    unfold_machine; cbn; split_cases; cbn; intro Hin;
    repeat match goal with
      | H : _ \/ _ |- _ => destruct H
      | H : False |- _ => destruct H
      end;
    try discriminate; congruence.
Qed.

(** X15.  Whatever happens to a machine once started, every broadcast
    it makes is addressed to the notification machine spawned at the
    start. *)
Theorem broadcasts_reach_notifMachine
  (params : Params) (world : World) (events : list (World * Event))
  (event : NotifEvent) (to : Nullable ActorRef) :
  In (Send event to)
    (snd (run params (fst (start params world)) events)) ->
  to = Val (Spawned notifMachine).
Proof.
  rewrite <- (start_spawns_notifMachine params world).
  generalize (fst (start params world)) as cfg.
  induction events as [|[w e] rest IH]; intros cfg Hin; [destruct Hin |].
  cbn [run] in Hin.
  pose proof (transition_keeps_notifRef params w cfg e) as Hkeep.
  pose proof (sends_go_to_notifRef params w cfg e event to) as Hstep.
  destruct (transition params w cfg e) as [cfg1 fx1].
  specialize (IH cfg1).
  destruct (run params cfg1 rest) as [cfg2 fx2].
  cbn [fst snd] in *. apply in_app_or in Hin as [Hin | Hin].
  - now apply Hstep.
  - rewrite <- Hkeep. now apply IH.
Qed.

Lemma broadcasts_reach_notifMachine_witness :
  let served :=
    {| data := Val {| ssr_id := abc123; ssr_text := "" |};
       isEmbedded := false |} in
  let notFound :=
    [(loggedOut,
      error_loadSourceContent (NotFoundError "Source not found in Registry"))]
  in
  In (Send (BROADCAST "Source not found in Registry" error)
        (notifRef (context (fst (start served loggedOut)))))
    (snd (run served (fst (start served loggedOut)) notFound))
  /\ notifRef (context (fst (start served loggedOut)))
     = Val (Spawned notifMachine).
Proof.
  cbv zeta.
  assert (Hin :
            In (Send (BROADCAST "Source not found in Registry" error)
                  (notifRef
                     (context
                        (fst (start
                                {| data := Val {| ssr_id := abc123;
                                                  ssr_text := "" |};
                                   isEmbedded := false |} loggedOut)))))
              (snd (run {| data := Val {| ssr_id := abc123; ssr_text := "" |};
                           isEmbedded := false |}
                      (fst (start {| data :=
                                       Val {| ssr_id := abc123;
                                              ssr_text := "" |};
                                     isEmbedded := false |} loggedOut))
                      [(loggedOut,
                        error_loadSourceContent
                          (NotFoundError "Source not found in Registry"))]))).
  { left. reflexivity. }
  split; [exact Hin |].
  apply (broadcasts_reach_notifMachine _ _ _ _ _ Hin).
Defined.

(** X16.  The machine touches the URL and the local cache in three
    places only.  It redirects at the start and in no transition; it
    removes a cache entry and replaces the URL only when
    [createSourceFile] is done in [pendingSave]; and it deletes query
    parameters only when a load fails with a [NotFoundError] in
    [loading_content]. *)
Theorem url_and_cache_are_touched_in_three_places
  (params : Params) (world : World) (cfg : Config) (e : Event) (fx : Effect) :
  In fx (snd (transition params world cfg e)) ->
  touchesUrlOrCache fx = true ->
  (value cfg = creating pendingSave
   /\ (exists d, e = done_createSourceFile d)
   /\ ((exists key, fx = RemoveSourceRawContent key)
       \/ (exists url, fx = RouterReplace url)))
  \/ (value cfg = with_source loading_content
      /\ (exists message, e = error_loadSourceContent (NotFoundError message))
      /\ fx = UpdateQueryParamsWithoutReload deleteIdAndGist).
Proof.
  destruct cfg as [v ctx]. unfold transition.
  destruct v as [|[|[|]|]|[|]|[|]|]; destruct e; cbn;
    unfold_machine; cbn; split_cases; cbn;
    intros Hin Htouch;
    repeat match goal with
      | H : _ \/ _ |- _ => destruct H
      | H : False |- _ => destruct H
      end;
    subst; try discriminate;
    try match goal with
      | H : instanceofNotFoundError ?d = true |- _ =>
          destruct d; [| discriminate H]
      end;
    try (left; split; [reflexivity |];
         split; [eexists; reflexivity |];
         first [left; eexists; reflexivity | right; eexists; reflexivity]);
    try (right; split; [reflexivity |];
         split; [eexists; reflexivity | reflexivity]).
Qed.

Lemma url_and_cache_are_touched_in_three_places_witness :
  value {| value := creating pendingSave; context := fooContext |}
  = creating pendingSave
  /\ In (RouterReplace "/new1")
       (snd (transition standalone loggedIn
               {| value := creating pendingSave; context := fooContext |}
               (done_createSourceFile (Val (newRecord "x"))))).
Proof.
  assert (Hin : In (RouterReplace "/new1")
                  (snd (transition standalone loggedIn
                          {| value := creating pendingSave;
                             context := fooContext |}
                          (done_createSourceFile (Val (newRecord "x")))))).
  { right. left. reflexivity. }
  split; [| exact Hin].
  destruct (url_and_cache_are_touched_in_three_places standalone loggedIn
              {| value := creating pendingSave; context := fooContext |}
              (done_createSourceFile (Val (newRecord "x")))
              (RouterReplace "/new1") Hin eq_refl)
    as [[Hv _] | [Hv _]]; [exact Hv | discriminate Hv].
Defined.

(** * Further properties of the canvas *)

(** ** The drag machine under its inputs *)

(** X17.  Embedded without permission to pan, the drag machine starts in
    [in_embedded_mode] and stays as it is for good: whatever the user
    does with keys and pointer, no event is sent to it, its state and
    context do not change, and no [PAN] is sent. *)
Theorem embedded_without_pan_is_inert
  (Element : Type) (isTextInputLikeElement : Element -> bool)
  (embed : Canvas.EmbedContext) (inputs : list (Canvas.Input Element))
  (embedded : Canvas.isEmbedded embed = true)
  (noPan : Canvas.pan embed = false) :
  Drag.value (Drag.start (Canvas.dragEmbed (Some embed)))
  = Drag.in_embedded_mode
  /\ Canvas.session isTextInputLikeElement
       (Drag.start (Canvas.dragEmbed (Some embed))) inputs
     = (Drag.start (Canvas.dragEmbed (Some embed)), [])
  /\ (forall events : list Drag.Event,
        Canvas.run (Drag.start (Canvas.dragEmbed (Some embed))) events
        = (Drag.start (Canvas.dragEmbed (Some embed)), [])).
Proof.
  assert (Hstart : Drag.value (Drag.start (Canvas.dragEmbed (Some embed)))
                   = Drag.in_embedded_mode).
  { unfold Drag.start, Drag.embeddedWithoutPan. cbn.
    now rewrite embedded, noPan. }
  split; [exact Hstart |].
  revert Hstart.
  generalize (Drag.start (Canvas.dragEmbed (Some embed))) as cfg.
  intros cfg Hcfg. split.
  - induction inputs as [|input rest IH]; [reflexivity |].
    cbn [Canvas.session].
    assert (Hsent : Canvas.sent isTextInputLikeElement cfg input = []).
    { unfold Canvas.sent, Canvas.onPointerDown, Canvas.onPointerMove,
        Canvas.onPointerUp.
      destruct input; rewrite Hcfg; reflexivity. }
    rewrite Hsent. cbn. now rewrite IH.
  - intro events. induction events as [|e rest IH]; [reflexivity |].
    cbn [Canvas.run].
    assert (Hstep : Drag.transition cfg e = (cfg, [])).
    { unfold Drag.transition. rewrite Hcfg. destruct e; reflexivity. }
    rewrite Hstep, IH. reflexivity.
Qed.

Lemma embedded_without_pan_is_inert_witness :
  Canvas.session isTextField
    (Drag.start (Canvas.dragEmbed (Some embeddedWithoutPanOrZoom)))
    [Canvas.KeyDown {| Drag.code := "Space"; Drag.target := "DIV" |};
     Canvas.PointerDown {| Drag.x := 1; Drag.y := 1 |};
     Canvas.PointerMove {| Drag.x := 5; Drag.y := 5 |}]
  = (Drag.start (Canvas.dragEmbed (Some embeddedWithoutPanOrZoom)), []).
Proof.
  apply (embedded_without_pan_is_inert string isTextField
           embeddedWithoutPanOrZoom); reflexivity.
Defined.

Lemma last_cons {A : Type} (l : list A) :
  forall a d : A, last (a :: l) d = last l a.
Proof.
  induction l as [|b l IH]; intros a d; [reflexivity |].
  change (last (a :: b :: l) d) with (last (b :: l) d).
  now rewrite !IH.
Qed.

(** The [PAN] events of a run of [DRAG] events, from [grabbed] or
    [dragging]: their deltas add up to the stored drag point less the
    last point. *)
Lemma drags_telescope (points : list Drag.Point) :
  forall (ctx : Drag.Context) (s : Drag.Locked),
    s <> Drag.idle ->
    let cfg := {| Drag.value := Drag.locked s; Drag.context := ctx |} in
    let final := Drag.after cfg (map Drag.DRAG points) in
    Canvas.panTotal (Canvas.pans cfg (map Drag.DRAG points))
    = ((Drag.x (Drag.dragPoint ctx)
        - Drag.x (Drag.dragPoint (Drag.context final)))%Z,
       (Drag.y (Drag.dragPoint ctx)
        - Drag.y (Drag.dragPoint (Drag.context final)))%Z)
    /\ Drag.dragPoint (Drag.context final) = last points (Drag.dragPoint ctx)
    /\ Drag.startPoint (Drag.context final) = Drag.startPoint ctx
    /\ Drag.value final
       = match points with
         | [] => Drag.locked s
         | _ => Drag.locked Drag.dragging
         end
    /\ length (Canvas.pans cfg (map Drag.DRAG points)) = length points.
Proof.
  induction points as [|p rest IH]; intros ctx s Hs.
  - cbn. repeat split; f_equal; lia.
  - assert (Hstep :
              Canvas.pans {| Drag.value := Drag.locked s; Drag.context := ctx |}
                (map Drag.DRAG (p :: rest))
              = Canvas.PAN (Drag.x (Drag.dragPoint ctx) - Drag.x p)
                  (Drag.y (Drag.dragPoint ctx) - Drag.y p)
                :: Canvas.pans
                     {| Drag.value := Drag.locked Drag.dragging;
                        Drag.context := Drag.assignDrag ctx p |}
                     (map Drag.DRAG rest)
              /\ Drag.after
                   {| Drag.value := Drag.locked s; Drag.context := ctx |}
                   (map Drag.DRAG (p :: rest))
                 = Drag.after
                     {| Drag.value := Drag.locked Drag.dragging;
                        Drag.context := Drag.assignDrag ctx p |}
                     (map Drag.DRAG rest)).
    { destruct s; [contradiction Hs; reflexivity | |]; split; reflexivity. }
    destruct Hstep as [Hpans Hafter]. cbv zeta.
    rewrite Hpans, Hafter.
    assert (Hd : Drag.dragging <> Drag.idle) by discriminate.
    specialize (IH (Drag.assignDrag ctx p) Drag.dragging Hd).
    cbv zeta in IH. destruct IH as [Htotal [Hlast [Hstart [Hvalue Hlen]]]].
    cbn [Canvas.panTotal]. rewrite Htotal. cbn [Drag.assignDrag Drag.dragPoint].
    split; [f_equal; lia |]. split.
    { rewrite Hlast. now rewrite last_cons. }
    split; [rewrite Hstart; reflexivity |].
    split; [destruct rest; [reflexivity | exact Hvalue] |].
    cbn [length]. now rewrite Hlen.
Qed.

(** The deltas sent for whole-pixel points are exact. *)
Lemma drags_are_exact (points : list Drag.Point) :
  forall (ctx : Drag.Context) (s : Drag.Locked),
    s <> Drag.idle ->
    wholePixel (Drag.dragPoint ctx) ->
    Forall wholePixel points ->
    Forall exactDelta
      (Canvas.pans {| Drag.value := Drag.locked s; Drag.context := ctx |}
         (map Drag.DRAG points)).
Proof.
  induction points as [|p rest IH]; intros ctx s Hs Hctx Hall;
    [constructor |].
  inversion Hall as [|p' rest' Hp Hrest]; subst.
  assert (Hstep :
            Canvas.pans {| Drag.value := Drag.locked s; Drag.context := ctx |}
              (map Drag.DRAG (p :: rest))
            = Canvas.PAN (Drag.x (Drag.dragPoint ctx) - Drag.x p)
                (Drag.y (Drag.dragPoint ctx) - Drag.y p)
              :: Canvas.pans
                   {| Drag.value := Drag.locked Drag.dragging;
                      Drag.context := Drag.assignDrag ctx p |}
                   (map Drag.DRAG rest)).
  { destruct s; [contradiction Hs; reflexivity | |]; reflexivity. }
  rewrite Hstep. constructor.
  - unfold wholePixel in *. cbn. lia.
  - apply IH; [discriminate | exact Hp | exact Hrest].
Qed.

(** X18.  A drag gesture in whole pixels: the pointer goes down at a
    point of a locked, idle canvas, moves through any points and goes
    up, all points having whole-number coordinates of magnitude at most
    2^52.  One [PAN] is sent for every move and none otherwise; every
    delta sent is a whole number of magnitude at most 2^53, so that the
    subtraction that yields it is exact; and the deltas of these [PAN]
    events add up to the point where the pointer went down less the
    last point it moved to.  The machine ends in [idle], with the point
    where the pointer went down as [startPoint]. *)
Theorem drag_gesture_pans_by_total_displacement
  (ctx : Drag.Context) (down : Drag.Point) (moves : list Drag.Point)
  (wholeDown : wholePixel down)
  (wholeMoves : Forall wholePixel moves) :
  let cfg := {| Drag.value := Drag.locked Drag.idle; Drag.context := ctx |} in
  let gesture :=
    (Drag.GRAB down :: map Drag.DRAG moves ++ [Drag.UNGRAB])%list in
  Canvas.panTotal (Canvas.pans cfg gesture)
  = ((Drag.x down - Drag.x (last moves down))%Z,
     (Drag.y down - Drag.y (last moves down))%Z)
  /\ length (Canvas.pans cfg gesture) = length moves
  /\ Forall exactDelta (Canvas.pans cfg gesture)
  /\ Drag.value (Drag.after cfg gesture) = Drag.locked Drag.idle
  /\ Drag.startPoint (Drag.context (Drag.after cfg gesture)) = down.
Proof.
  cbv zeta.
  set (grabbed := {| Drag.value := Drag.locked Drag.grabbed;
                     Drag.context := Drag.assignGrab ctx down |}).
  assert (Hgrab :
            Canvas.pans
              {| Drag.value := Drag.locked Drag.idle; Drag.context := ctx |}
              (Drag.GRAB down :: map Drag.DRAG moves ++ [Drag.UNGRAB])
            = Canvas.pans grabbed (map Drag.DRAG moves ++ [Drag.UNGRAB])
            /\ Drag.after
                 {| Drag.value := Drag.locked Drag.idle;
                    Drag.context := ctx |}
                 (Drag.GRAB down :: map Drag.DRAG moves ++ [Drag.UNGRAB])
               = Drag.after grabbed (map Drag.DRAG moves ++ [Drag.UNGRAB])).
  { split; reflexivity. }
  destruct Hgrab as [Hpans Hafter]. rewrite Hpans, Hafter.
  assert (Hungrab : forall (points : list Drag.Point) (c : Drag.Context)
                           (s : Drag.Locked),
             s <> Drag.idle ->
             Canvas.pans {| Drag.value := Drag.locked s; Drag.context := c |}
               (map Drag.DRAG points ++ [Drag.UNGRAB])
             = Canvas.pans {| Drag.value := Drag.locked s; Drag.context := c |}
                 (map Drag.DRAG points)
             /\ Drag.value
                  (Drag.after
                     {| Drag.value := Drag.locked s; Drag.context := c |}
                     (map Drag.DRAG points ++ [Drag.UNGRAB]))
                = Drag.locked Drag.idle
             /\ Drag.context
                  (Drag.after
                     {| Drag.value := Drag.locked s; Drag.context := c |}
                     (map Drag.DRAG points ++ [Drag.UNGRAB]))
                = Drag.context
                    (Drag.after
                       {| Drag.value := Drag.locked s; Drag.context := c |}
                       (map Drag.DRAG points))).
  { induction points as [|p rest IH]; intros c s Hs.
    - destruct s; [contradiction Hs; reflexivity | |]; repeat split.
    - assert (Hd : Drag.dragging <> Drag.idle) by discriminate.
      destruct (IH (Drag.assignDrag c p) Drag.dragging Hd)
        as [H1 [H2 H3]].
      destruct s; [contradiction Hs; reflexivity | |]; cbn;
        cbn in H1, H2, H3; rewrite H1; repeat split; assumption. }
  assert (Hg : Drag.grabbed <> Drag.idle) by discriminate.
  destruct (Hungrab moves (Drag.assignGrab ctx down) Drag.grabbed Hg)
    as [Hp [Hv Hc]].
  destruct (drags_telescope moves (Drag.assignGrab ctx down) Drag.grabbed Hg)
    as [Htotal [Hlast [Hstart [_ Hlen]]]].
  pose proof (drags_are_exact moves (Drag.assignGrab ctx down) Drag.grabbed
                Hg wholeDown wholeMoves) as Hexact.
  unfold grabbed. rewrite Hp, Hc, Htotal, Hlast, Hstart, Hlen.
  cbn [Drag.assignGrab Drag.dragPoint Drag.startPoint].
  split; [reflexivity |]. split; [reflexivity |].
  split; [exact Hexact |]. split; [exact Hv | reflexivity].
Qed.

Lemma drag_gesture_pans_by_total_displacement_witness :
  Canvas.panTotal
    (Canvas.pans
       {| Drag.value := Drag.locked Drag.idle;
          Drag.context := Drag.initialContext |}
       [Drag.GRAB {| Drag.x := 10; Drag.y := 10 |};
        Drag.DRAG {| Drag.x := 15; Drag.y := 12 |};
        Drag.DRAG {| Drag.x := 11; Drag.y := 30 |};
        Drag.UNGRAB])
  = ((10 - 11)%Z, (10 - 30)%Z).
Proof.
  apply (drag_gesture_pans_by_total_displacement Drag.initialContext
           {| Drag.x := 10; Drag.y := 10 |}
           [{| Drag.x := 15; Drag.y := 12 |};
            {| Drag.x := 11; Drag.y := 30 |}]).
  - unfold wholePixel. cbn. lia.
  - repeat constructor; cbn; lia.
Defined.


(** X19.  Text selection is off exactly while the machine is locked:
    over any events, from any state, the machine switches selection off
    once more than it switches it back on when it goes from unlocked to
    locked, once less when it goes from locked to unlocked, and as often
    otherwise.  In particular, from [released], selection has been
    switched off one more time than on when the machine ends locked,
    and as many times when it does not. *)
Theorem text_selection_off_while_locked (events : list Drag.Event) :
  forall cfg : Drag.Config,
    let step := Canvas.run cfg events in
    (selectionOff (snd step)
     = (if isLocked (Drag.value (fst step)) then 1 else 0)
       - (if isLocked (Drag.value cfg) then 1 else 0))%Z.
Proof.
  assert (Happ : forall l1 l2,
             selectionOff (l1 ++ l2)
             = (selectionOff l1 + selectionOff l2)%Z).
  { induction l1 as [|[|] l1 IH]; intro l2; cbn [app selectionOff];
      rewrite ?IH; lia. }
  induction events as [|e rest IH]; intro cfg; cbv zeta.
  - cbn. lia.
  - cbn [Canvas.run].
    assert (Hstep :
              selectionOff (snd (Drag.transition cfg e))
              = ((if isLocked (Drag.value (fst (Drag.transition cfg e)))
                  then 1 else 0)
                 - (if isLocked (Drag.value cfg) then 1 else 0))%Z).
    { destruct cfg as [v ctx]. unfold Drag.transition.
      destruct v as [| |[| |]]; destruct e; reflexivity. }
    destruct (Drag.transition cfg e) as [cfg1 fx1].
    specialize (IH cfg1). cbv zeta in IH.
    destruct (Canvas.run cfg1 rest) as [cfg2 fx2].
    cbn [fst snd] in *. rewrite Happ. lia.
Qed.

(** X20.  The events the component sends are events the drag machine
    acts on: whatever the input and the state, an event sent makes the
    machine change its state, or is a [DRAG] that re-enters [dragging]
    on the new point.  This is what the test of [nextEvents] in the
    pointer handlers achieves: an event whose type is among the
    [nextEvents] of a state is acted on in this way, and any other event
    leaves the machine as it is and runs no effect.  And the pointer
    alone does nothing to a canvas that is not locked: from [released],
    pointer inputs send no event, leave the machine as it is and send no
    [PAN]. *)
Theorem pointer_needs_lock
  (Element : Type) (isTextInputLikeElement : Element -> bool) :
  let actedOn (state : Drag.Config) (e : Drag.Event) :=
    Drag.value (fst (Drag.transition state e)) <> Drag.value state
    \/ (exists point : Drag.Point,
          e = Drag.DRAG point
          /\ Drag.value state = Drag.locked Drag.dragging
          /\ fst (Drag.transition state e)
             = {| Drag.value := Drag.locked Drag.dragging;
                  Drag.context :=
                    Drag.assignDrag (Drag.context state) point |}) in
  (forall (state : Drag.Config) (input : Canvas.Input Element)
          (e : Drag.Event),
     In e (Canvas.sent isTextInputLikeElement state input) ->
     actedOn state e)
  /\ (forall (state : Drag.Config) (e : Drag.Event),
        Canvas.includes (Canvas.eventType e)
          (Canvas.nextEvents (Drag.value state)) = true ->
        actedOn state e)
  /\ (forall (state : Drag.Config) (e : Drag.Event),
        Canvas.includes (Canvas.eventType e)
          (Canvas.nextEvents (Drag.value state)) = false ->
        Drag.transition state e = (state, []))
  /\ (forall (ctx : Drag.Context) (inputs : list (Canvas.Input Element)),
        forallb isPointerInput inputs = true ->
        Canvas.session isTextInputLikeElement
          {| Drag.value := Drag.released; Drag.context := ctx |} inputs
        = ({| Drag.value := Drag.released; Drag.context := ctx |}, [])).
Proof.
  cbv zeta.
  assert (Hacted : forall (state : Drag.Config) (e : Drag.Event),
             Canvas.includes (Canvas.eventType e)
               (Canvas.nextEvents (Drag.value state)) = true ->
             Drag.value (fst (Drag.transition state e)) <> Drag.value state
             \/ (exists point : Drag.Point,
                   e = Drag.DRAG point
                   /\ Drag.value state = Drag.locked Drag.dragging
                   /\ fst (Drag.transition state e)
                      = {| Drag.value := Drag.locked Drag.dragging;
                           Drag.context :=
                             Drag.assignDrag (Drag.context state) point |})).
  { intros [v ctx] e.
    destruct v as [| |[| |]]; destruct e; cbn; intro H;
      try discriminate H;
      try (left; discriminate);
      right; eexists; repeat split. }
  split; [| split; [exact Hacted | split]].
  - intros [v ctx] input e Hin. apply Hacted. revert Hin.
    unfold Canvas.sent, Canvas.onPointerDown, Canvas.onPointerMove,
      Canvas.onPointerUp, Drag.keydownListener, Drag.keyupListener.
    destruct input as [ke | ke | p | p |]; cbn [Drag.value].
    + destruct v as [| |s]; try (intros []).
      destruct (isTextInputLikeElement (Drag.target ke)); [intros [] |].
      destruct (Drag.code ke =? "Space"); [| intros []].
      intros [<- | []]. reflexivity.
    + destruct v as [| |s]; try (intros []).
      destruct (Drag.code ke =? "Space"); [| intros []].
      intros [<- | []]. destruct s; reflexivity.
    + destruct (Canvas.includes "GRAB" (Canvas.nextEvents v)) eqn:H;
        [| intros []]. intros [<- | []]. exact H.
    + destruct (Canvas.includes "DRAG" (Canvas.nextEvents v)) eqn:H;
        [| intros []]. intros [<- | []]. exact H.
    + destruct (Canvas.includes "UNGRAB" (Canvas.nextEvents v)) eqn:H;
        [| intros []]. intros [<- | []]. exact H.
  - intros [v ctx] e.
    destruct v as [| |[| |]]; destruct e; cbn; intro H;
      try discriminate H; reflexivity.
  - intros ctx inputs. induction inputs as [|input rest IH]; intro Hall;
      [reflexivity |].
    cbn in Hall. apply andb_prop in Hall as [Hp Hrest].
    cbn [Canvas.session].
    assert (Hsent : Canvas.sent isTextInputLikeElement
                      {| Drag.value := Drag.released; Drag.context := ctx |}
                      input = []).
    { destruct input; try discriminate Hp; reflexivity. }
    rewrite Hsent. cbn. now rewrite (IH Hrest).
Qed.

Lemma pointer_needs_lock_witness :
  Canvas.session isTextField
    {| Drag.value := Drag.released; Drag.context := Drag.initialContext |}
    [Canvas.PointerDown {| Drag.x := 1; Drag.y := 1 |};
     Canvas.PointerMove {| Drag.x := 5; Drag.y := 5 |};
     Canvas.PointerUp]
  = ({| Drag.value := Drag.released; Drag.context := Drag.initialContext |},
     []).
Proof.
  apply (pointer_needs_lock string isTextField). reflexivity.
Defined.

(** X21.  While the machine is locked, key-down events are not listened
    to: the repeated key-downs of a Space held down neither lock again
    nor disturb a grab or a drag in progress.  And pressing Space
    outside a text field, then releasing it anywhere, takes a released
    machine through [locked / idle] back to [released] with its context
    untouched. *)
Theorem held_space_does_not_disturb_drag
  (Element : Type) (isTextInputLikeElement : Element -> bool)
  (ctx : Drag.Context) :
  (forall (s : Drag.Locked) (inputs : list (Canvas.Input Element)),
     forallb isKeyDown inputs = true ->
     Canvas.session isTextInputLikeElement
       {| Drag.value := Drag.locked s; Drag.context := ctx |} inputs
     = ({| Drag.value := Drag.locked s; Drag.context := ctx |}, []))
  /\ (forall down up : Element,
        isTextInputLikeElement down = false ->
        let press :=
          Canvas.KeyDown {| Drag.code := "Space"; Drag.target := down |} in
        let release :=
          Canvas.KeyUp {| Drag.code := "Space"; Drag.target := up |} in
        let released :=
          {| Drag.value := Drag.released; Drag.context := ctx |} in
        Canvas.session isTextInputLikeElement released [press]
        = ({| Drag.value := Drag.locked Drag.idle; Drag.context := ctx |}, [])
        /\ Canvas.session isTextInputLikeElement released [press; release]
           = (released, [])).
Proof.
  split.
  - intros s inputs. induction inputs as [|input rest IH]; intro Hall;
      [reflexivity |].
    cbn in Hall. apply andb_prop in Hall as [Hk Hrest].
    cbn [Canvas.session].
    assert (Hsent : Canvas.sent isTextInputLikeElement
                      {| Drag.value := Drag.locked s; Drag.context := ctx |}
                      input = []).
    { destruct input; try discriminate Hk; reflexivity. }
    rewrite Hsent. cbn. now rewrite (IH Hrest).
  - intros down up Hdown. cbv zeta.
    unfold Canvas.session, Canvas.sent, Drag.keydownListener. cbn.
    rewrite Hdown. cbn. split; reflexivity.
Qed.

Lemma held_space_does_not_disturb_drag_witness :
  Canvas.session isTextField
    {| Drag.value := Drag.locked Drag.dragging;
       Drag.context := Drag.initialContext |}
    [Canvas.KeyDown {| Drag.code := "Space"; Drag.target := "DIV" |};
     Canvas.KeyDown {| Drag.code := "Space"; Drag.target := "DIV" |}]
  = ({| Drag.value := Drag.locked Drag.dragging;
        Drag.context := Drag.initialContext |}, [])
  /\ Canvas.session isTextField
       {| Drag.value := Drag.released; Drag.context := Drag.initialContext |}
       [Canvas.KeyDown {| Drag.code := "Space"; Drag.target := "DIV" |};
        Canvas.KeyUp {| Drag.code := "Space"; Drag.target := "INPUT" |}]
     = ({| Drag.value := Drag.released;
           Drag.context := Drag.initialContext |}, []).
Proof.
  pose proof (held_space_does_not_disturb_drag string isTextField
                Drag.initialContext) as [Hheld Hround].
  split.
  - apply (Hheld Drag.dragging). reflexivity.
  - apply (Hround "DIV" "INPUT"). reflexivity.
Defined.

(** ** The wheel *)

(** X22.  The wheel handler prevents the default action exactly on
    events with the platform's meta key.  It sends at most one event:
    a [PAN] only for an event without the platform meta key and with
    neither [metaKey] nor [ctrlKey], carrying the deltas of the event,
    and never when embedded without permission to pan; a zoom only for
    an event with the platform meta key and a vertical delta other than
    zero, out for a positive and in for a negative one, at the position
    of the pointer, and never when embedded without permission to
    zoom. *)
Theorem wheel_respects_embed_permissions
  (isWithPlatformMetaKey : Canvas.WheelEvent -> bool)
  (embed : option Canvas.EmbedContext) (e : Canvas.WheelEvent) :
  let handled := Canvas.onCanvasWheel isWithPlatformMetaKey embed e in
  fst handled = isWithPlatformMetaKey e
  /\ (forall dx dy : Z,
        snd handled = Some (Canvas.PAN dx dy) ->
        isWithPlatformMetaKey e = false
        /\ Canvas.metaKey e = false /\ Canvas.ctrlKey e = false
        /\ dx = Canvas.deltaX e /\ dy = Canvas.deltaY e
        /\ forall em, embed = Some em ->
             Canvas.isEmbedded em = true -> Canvas.pan em = true)
  /\ (forall (x y : Z) (factor : Canvas.ZoomFactor),
        snd handled = Some (Canvas.ZOOM_OUT x y factor)
        \/ snd handled = Some (Canvas.ZOOM_IN x y factor) ->
        isWithPlatformMetaKey e = true
        /\ x = Canvas.clientX e /\ y = Canvas.clientY e
        /\ (snd handled = Some (Canvas.ZOOM_OUT x y factor) ->
            (Canvas.deltaY e > 0)%Z)
        /\ (snd handled = Some (Canvas.ZOOM_IN x y factor) ->
            (Canvas.deltaY e < 0)%Z)
        /\ forall em, embed = Some em ->
             Canvas.isEmbedded em = true -> Canvas.zoom em = true).
Proof.
  cbv zeta. unfold Canvas.onCanvasWheel. cbn [fst snd].
  split; [reflexivity |]. split.
  - intros dx dy.
    destruct (isWithPlatformMetaKey e); cbn.
    + destruct embed as [[emb p z c]|]; cbn;
        [destruct emb, z; cbn |];
        try discriminate;
        destruct (Canvas.deltaY e >? 0)%Z; try discriminate;
        destruct (Canvas.deltaY e <? 0)%Z; discriminate.
    + destruct embed as [[emb p z c]|]; cbn;
        [destruct emb, p; cbn |]; try discriminate;
        destruct (Canvas.metaKey e), (Canvas.ctrlKey e); cbn;
        try discriminate;
        intro H; injection H as <- <-; repeat split;
        intros em Hem;
        first [discriminate Hem | injection Hem as <-; cbn; congruence].
  - intros x y factor.
    destruct (isWithPlatformMetaKey e); cbn.
    + destruct embed as [[emb p z c]|]; cbn;
        [destruct emb, z; cbn |];
        try (intros [Hz | Hz]; discriminate Hz);
        (destruct (Z.gtb_spec (Canvas.deltaY e) 0) as [Hgt | Hgt];
         [| destruct (Z.ltb_spec (Canvas.deltaY e) 0) as [Hlt | Hlt]]);
        intros [Hz | Hz]; try discriminate Hz;
        injection Hz as <- <-; repeat split;
        try (intro Hz'; discriminate Hz'); try lia;
        try (intros em Hem;
             first [discriminate Hem
                   | injection Hem as <-; cbn; congruence]).
    + destruct embed as [[emb p z c]|]; cbn;
        [destruct emb, p; cbn |];
        destruct (Canvas.metaKey e), (Canvas.ctrlKey e); cbn;
        intros [H | H]; discriminate H.
Qed.

Lemma wheel_respects_embed_permissions_witness :
  snd (Canvas.onCanvasWheel Canvas.metaKey None plainWheel)
  = Some (Canvas.PAN 3 (-7))
  /\ Canvas.metaKey plainWheel = false.
Proof.
  assert (Hpan : snd (Canvas.onCanvasWheel Canvas.metaKey None plainWheel)
                 = Some (Canvas.PAN 3 (-7))) by reflexivity.
  split; [exact Hpan |].
  pose proof (wheel_respects_embed_permissions Canvas.metaKey None plainWheel)
    as [_ [Hpans _]].
  apply (Hpans 3 (-7))%Z. exact Hpan.
Defined.

(** ** What [CanvasView] offers *)

(** X23.  [CanvasView] disables the reset button exactly when the view
    is embedded with neither zoom nor pan permitted, and then neither
    the wheel nor the drag machine can move the canvas: no wheel event
    sends anything to the canvas service, the drag machine starts in
    [in_embedded_mode], and no input to it sends a [PAN].  A view that
    is not embedded shows the header and the controls and leaves reset
    enabled. *)
Theorem reset_is_disabled_when_nothing_moves
  (embed : option Canvas.EmbedContext) :
  (Canvas.resetDisabled embed = true ->
   (forall (isWithPlatformMetaKey : Canvas.WheelEvent -> bool)
           (e : Canvas.WheelEvent),
      snd (Canvas.onCanvasWheel isWithPlatformMetaKey embed e) = None)
   /\ Drag.value (Drag.start (Canvas.dragEmbed embed)) = Drag.in_embedded_mode
   /\ (forall (Element : Type) (isTextInputLikeElement : Element -> bool)
              (inputs : list (Canvas.Input Element)),
         snd (Canvas.session isTextInputLikeElement
                (Drag.start (Canvas.dragEmbed embed)) inputs) = []))
  /\ (Canvas.showsHeader embed = true ->
      Canvas.showsControls embed = true
      /\ Canvas.resetDisabled embed = false
      /\ Drag.value (Drag.start (Canvas.dragEmbed embed)) = Drag.released).
Proof.
  split.
  - destruct embed as [[emb p z c]|]; [| discriminate].
    cbn. intro H.
    destruct emb, z, p; try discriminate H.
    split; [| split].
    + intros f e. unfold Canvas.onCanvasWheel. cbn.
      destruct (f e); reflexivity.
    + reflexivity.
    + intros Element isText inputs.
      set (cfg := Drag.start _).
      assert (Hcfg : Drag.value cfg = Drag.in_embedded_mode) by reflexivity.
      clearbody cfg.
      induction inputs as [|input rest IH]; [reflexivity |].
      cbn [Canvas.session].
      assert (Hsent : Canvas.sent isText cfg input = []).
      { unfold Canvas.sent, Canvas.onPointerDown, Canvas.onPointerMove,
          Canvas.onPointerUp.
        destruct input; rewrite Hcfg; reflexivity. }
      rewrite Hsent. cbn.
      destruct (Canvas.session isText cfg rest) as [c2 p2].
      cbn in *. exact IH.
  - destruct embed as [[emb p z c]|]; cbn; [| repeat split].
    destruct emb; [discriminate |]. repeat split.
Qed.

Lemma reset_is_disabled_when_nothing_moves_witness :
  Canvas.resetDisabled (Some embeddedWithoutPanOrZoom) = true
  /\ snd (Canvas.onCanvasWheel Canvas.metaKey (Some embeddedWithoutPanOrZoom)
            plainWheel) = None
  /\ Canvas.showsHeader None = true
  /\ Canvas.resetDisabled None = false.
Proof.
  split; [reflexivity |]. split.
  - apply (reset_is_disabled_when_nothing_moves
             (Some embeddedWithoutPanOrZoom)).
    reflexivity.
  - split; [reflexivity |].
    apply (reset_is_disabled_when_nothing_moves None). reflexivity.
Defined.
